(** * LibreOffice spreadsheet environment: dispatch and episode state machine

    A shallow embedding of
    [src/envs/libreoffice_env/server/libreoffice_environment.py] and of the
    data classes of [src/envs/libreoffice_env/models.py].

    The Python methods mutate the environment object ([self]), write to the
    standard output and drive LibreOffice and the operating system.  They are
    embedded as functions of a state-and-exception monad over a process state
    made of [self], the printed lines and the state of the outside world.
    LibreOffice (reached through the UNO bridge), the file system and the
    parts of the Python runtime that the module only calls are an interface,
    [Host]: every call may return or raise, and may change the world.  The
    theorems about the environment hold for every host; [Sim] is one small
    host on which the statements are evaluated.

    Strings are Python [str] values in their UTF-8 encoding.  What is raised
    is an instance of [Exception]; the [import] statements inside the methods
    are taken to succeed. *)

From Stdlib Require Import ZArith String Ascii List Bool Lia.
From Stdlib Require Import PrimFloat Uint63 SpecFloat FloatOps.
From Stdlib Require Import DecimalString DecimalZ.
From stdpp Require Import gmap strings.

Set Warnings "-register-all,-inexact-float".
Set Default Proof Using "Type".

Open Scope Z_scope.
Open Scope string_scope.

(** ** Python values *)

(** The values that travel in an action's parameters and in an observation's
    payload: what a JSON body decodes to.  A [dict] inside a value keeps the
    order of its items, which iteration observes; its keys are distinct. *)
Inductive pyval : Type :=
| PNone
| PBool (b : bool)
| PInt (z : Z)
| PFloat (f : float)
| PStr (s : string)
| PList (l : list pyval)
| PDict (d : list (string * pyval)).

(** Instances of [Exception], by the classes the module tells apart.  A UNO
    exception other than [NoConnectException] is a [UnoException]. *)
Inductive exn_class : Type :=
| NoConnectException
| UnoException
| RuntimeError
| AttributeError
| TypeError
| KeyError
| ValueError
| OverflowError
| OSError.

(** [exn_str] is [str(e)]. *)
Record exn : Type := Exn { exn_cls : exn_class; exn_str : string }.

(** What evaluating a Python expression gives. *)
Inductive outcome (A : Type) : Type :=
| Returned (a : A)
| Raised (e : exn).
Arguments Returned {A} a.
Arguments Raised {A} e.

(** [bool(v)]: the truth value used by [if v], [not v], [v or d]. *)
Definition truthy (v : pyval) : bool :=
  match v with
  | PNone => false
  | PBool b => b
  | PInt z => negb (z =? 0)%Z
  | PFloat f => negb (PrimFloat.eqb f 0%float)
  | PStr s => negb (String.eqb s "")
  | PList l => match l with [] => false | _ => true end
  | PDict d => match d with [] => false | _ => true end
  end.

(** [type(v).__name__], as it appears in the interpreter's messages. *)
Definition type_name (v : pyval) : string :=
  match v with
  | PNone => "NoneType"
  | PBool _ => "bool"
  | PInt _ => "int"
  | PFloat _ => "float"
  | PStr _ => "str"
  | PList _ => "list"
  | PDict _ => "dict"
  end.

(** [isinstance(v, (int, float))]; [bool] is a subclass of [int]. *)
Definition is_int_or_float (v : pyval) : bool :=
  match v with
  | PBool _ | PInt _ | PFloat _ => true
  | _ => false
  end.

(** [isinstance(v, str)]. *)
Definition is_str (v : pyval) : bool :=
  match v with PStr _ => true | _ => false end.

(** [str(z)] for an [int]: decimal digits, with a minus sign when negative. *)
Definition str_of_int (z : Z) : string :=
  NilZero.string_of_int (Z.to_int z).

(** [sep.join(l)]. *)
Fixpoint join (sep : string) (l : list string) : string :=
  match l with
  | [] => ""
  | [s] => s
  | s :: rest => s ++ sep ++ join sep rest
  end.

(** *** Whitespace and [str.strip]

    [str.isspace] holds of U+0009..U+000D, U+001C..U+0020, U+0085, U+00A0,
    U+1680, U+2000..U+200A, U+2028, U+2029, U+202F, U+205F and U+3000.  Their
    UTF-8 encodings: *)
Definition bytes (l : list N) : string :=
  string_of_list_ascii (map ascii_of_N l).

Definition whitespace : list string :=
  map bytes
    (List.app
       [ [9]; [10]; [11]; [12]; [13]; [28]; [29]; [30]; [31]; [32];
         [194; 133]; [194; 160]; [225; 154; 128] ]
       (List.app
          (map (fun b => [226; 128; b])
               [128; 129; 130; 131; 132; 133; 134; 135; 136; 137; 138])
          [ [226; 128; 168]; [226; 128; 169]; [226; 128; 175];
            [226; 129; 159]; [227; 128; 128] ]))%N.

(** [drop_prefix p s] is the rest of [s] after [p], when [s] starts with [p]. *)
Fixpoint drop_prefix (p s : string) : option string :=
  match p, s with
  | EmptyString, _ => Some s
  | String a p', String b s' => if Ascii.eqb a b then drop_prefix p' s' else None
  | String _ _, EmptyString => None
  end.

(** The rest of [s] after one leading whitespace character, if it has one. *)
Definition drop_space (s : string) : option string :=
  fold_right (fun ws acc => match drop_prefix ws s with Some r => Some r | None => acc end)
    None whitespace.

Fixpoint lstrip_fuel (n : nat) (s : string) : string :=
  match n with
  | O => s
  | S n' => match drop_space s with
            | Some r => lstrip_fuel n' r
            | None => s
            end
  end.

(** [s.lstrip()]: every step removes at least one byte, so [length s] steps
    are enough. *)
Definition lstrip (s : string) : string := lstrip_fuel (String.length s) s.

(** [s.rstrip()].  In UTF-8 no encoding of a character ends with the encoding
    of another, so trailing whitespace is leading whitespace of the string of
    the reversed encodings. *)
Definition rev_string (s : string) : string :=
  string_of_list_ascii (rev (list_ascii_of_string s)).

Definition drop_space_end (s : string) : option string :=
  fold_right
    (fun ws acc => match drop_prefix (rev_string ws) (rev_string s) with
                   | Some r => Some (rev_string r)
                   | None => acc
                   end)
    None whitespace.

Fixpoint rstrip_fuel (n : nat) (s : string) : string :=
  match n with
  | O => s
  | S n' => match drop_space_end s with
            | Some r => rstrip_fuel n' r
            | None => s
            end
  end.

Definition rstrip (s : string) : string := rstrip_fuel (String.length s) s.

(** [s.strip()]. *)
Definition strip (s : string) : string := rstrip (lstrip s).

(** [needle in s] for two strings. *)
Fixpoint contains (needle s : string) : bool :=
  match drop_prefix needle s with
  | Some _ => true
  | None => match s with
            | EmptyString => false
            | String _ s' => contains needle s'
            end
  end.

(** The characters of [s], each as a string: a byte [10xxxxxx] continues the
    character before it. *)
Definition is_continuation (a : ascii) : bool :=
  let n := N_of_ascii a in ((128 <=? n) && (n <? 192))%N.

Fixpoint chars (s : string) : list string :=
  match s with
  | EmptyString => []
  | String a s' =>
      match chars s' with
      | [] => [String a EmptyString]
      | c :: cs =>
          match c with
          | String b _ => if is_continuation b then String a c :: cs
                          else String a EmptyString :: c :: cs
          | EmptyString => String a EmptyString :: cs
          end
      end
  end.

(** ** The data classes of [models.py] *)

(** [LibreOfficeAction]: [parameters] defaults to [None], which
    [__post_init__] replaces by the empty dict. *)
Record LibreOfficeAction : Type := {
  command : string;
  parameters : gmap string pyval
}.

(** [LibreOfficeObservation].  The fields [done], [reward] and [metadata] are
    inherited from [core.env_server.types.Observation].

    Modelled from the spec: the base class [Observation] is not part of the
    module; the spec gives it [done] (boolean), [reward] (optional scalar) and
    [metadata] (mapping), here with the defaults [False], [None] and [{}]. *)
Record LibreOfficeObservation : Type := {
  result : string;
  success : bool;
  data : pyval;
  current_sheet : pyval;
  sheet_names : option (list string);
  error_message : option string;
  file_path : pyval;
  done : bool;
  reward : option float;
  metadata : gmap string pyval
}.

(** [LibreOfficeObservation(result=r, success=b)]: every other field at its
    default. *)
Definition observation (r : string) (b : bool) : LibreOfficeObservation :=
  {| result := r; success := b; data := PNone; current_sheet := PNone;
     sheet_names := None; error_message := None; file_path := PNone;
     done := false; reward := None; metadata := ∅ |}.

Definition with_data (v : pyval) (o : LibreOfficeObservation) :=
  {| result := result o; success := success o; data := v;
     current_sheet := current_sheet o; sheet_names := sheet_names o;
     error_message := error_message o; file_path := file_path o;
     done := done o; reward := reward o; metadata := metadata o |}.

Definition with_current_sheet (v : pyval) (o : LibreOfficeObservation) :=
  {| result := result o; success := success o; data := data o;
     current_sheet := v; sheet_names := sheet_names o;
     error_message := error_message o; file_path := file_path o;
     done := done o; reward := reward o; metadata := metadata o |}.

Definition with_sheet_names (l : list string) (o : LibreOfficeObservation) :=
  {| result := result o; success := success o; data := data o;
     current_sheet := current_sheet o; sheet_names := Some l;
     error_message := error_message o; file_path := file_path o;
     done := done o; reward := reward o; metadata := metadata o |}.

Definition with_error_message (m : string) (o : LibreOfficeObservation) :=
  {| result := result o; success := success o; data := data o;
     current_sheet := current_sheet o; sheet_names := sheet_names o;
     error_message := Some m; file_path := file_path o;
     done := done o; reward := reward o; metadata := metadata o |}.

Definition with_file_path (v : pyval) (o : LibreOfficeObservation) :=
  {| result := result o; success := success o; data := data o;
     current_sheet := current_sheet o; sheet_names := sheet_names o;
     error_message := error_message o; file_path := v;
     done := done o; reward := reward o; metadata := metadata o |}.

Definition with_done (b : bool) (o : LibreOfficeObservation) :=
  {| result := result o; success := success o; data := data o;
     current_sheet := current_sheet o; sheet_names := sheet_names o;
     error_message := error_message o; file_path := file_path o;
     done := b; reward := reward o; metadata := metadata o |}.

Definition with_reward (r : float) (o : LibreOfficeObservation) :=
  {| result := result o; success := success o; data := data o;
     current_sheet := current_sheet o; sheet_names := sheet_names o;
     error_message := error_message o; file_path := file_path o;
     done := done o; reward := Some r; metadata := metadata o |}.

Definition with_metadata (m : gmap string pyval) (o : LibreOfficeObservation) :=
  {| result := result o; success := success o; data := data o;
     current_sheet := current_sheet o; sheet_names := sheet_names o;
     error_message := error_message o; file_path := file_path o;
     done := done o; reward := reward o; metadata := m |}.

(** [x |> f] applies the keyword [f] to [x]:
    [observation r b |> with_data v] is
    [LibreOfficeObservation(result=r, success=b, data=v)]. *)
Notation "x |> f" := (f x) (at level 50, left associativity, only parsing).

(** Modelled from the spec: [core.env_server.types.State] is not part of the
    module; a state query returns [{episode_id, step_count}]. *)
Record State : Type := {
  episode_id : string;
  step_count : Z
}.

(** ** The host: LibreOffice, the operating system, the Python runtime

    The objects the module holds (component contexts, the desktop, documents,
    sheets, cells) are handles into the world.  [ext A] is a call that returns
    an [A] or raises, and leaves the world changed. *)
Inductive store_args : Type :=
| PropertyValues (l : list (string * pyval))
| Tuples (l : list (string * string)).

Class Host : Type := {
  world : Type;
  local_context : Type;
  url_resolver : Type;
  context : Type;
  desktop : Type;
  document : Type;
  sheets : Type;
  sheet : Type;
  cells : Type;

  (** Python runtime: [float(z)] of an [int], [repr] of a [float] and of a
      [str], [int(s, 16)]. *)
  float_of_int : Z -> outcome float;
  repr_float : float -> string;
  repr_str : string -> string;
  int_base16 : string -> outcome Z;

  (** [uuid], [time], [os], [os.path], [tempfile], [shutil], [traceback],
      [unohelper]. *)
  uuid4 : world -> string * world;
  sleep : float -> world -> world;
  print_exc : exn -> world -> world;
  path_exists : pyval -> world -> outcome bool * world;
  abspath : pyval -> world -> outcome string * world;
  dirname : pyval -> world -> outcome string * world;
  makedirs : string -> world -> outcome unit * world;
  access_W_OK : string -> world -> outcome bool * world;
  mkdtemp : string -> world -> outcome string * world;
  rmtree : string -> world -> outcome unit * world;
  systemPathToFileUrl : string -> world -> outcome string * world;

  (** [uno.getComponentContext()];
      [ctx.ServiceManager.createInstanceWithContext(
         "com.sun.star.bridge.UnoUrlResolver", ctx)];
      [resolver.resolve(url)];
      [ctx.getServiceManager().createInstanceWithContext(
         "com.sun.star.frame.Desktop", ctx)], which may give [None];
      [desktop.loadComponentFromURL(url, "_blank", 0, ())], which may give
      [None]; [desktop.terminate()]. *)
  getComponentContext : world -> outcome local_context * world;
  createUnoUrlResolver : local_context -> world -> outcome url_resolver * world;
  resolve : url_resolver -> string -> world -> outcome context * world;
  createDesktop : context -> world -> outcome (option desktop) * world;
  loadComponentFromURL : desktop -> string -> world -> outcome (option document) * world;
  terminate : desktop -> world -> outcome unit * world;

  (** [document.close(True)], [document.storeAsURL(url, ())],
      [document.storeToURL(url, args)], [document.getSheets()]. *)
  close_document : document -> world -> outcome unit * world;
  storeAsURL : document -> string -> world -> outcome unit * world;
  storeToURL : document -> string -> store_args -> world -> outcome unit * world;
  getSheets : document -> world -> outcome sheets * world;

  (** The sheets of a document. *)
  getByIndex : sheets -> Z -> world -> outcome sheet * world;
  getByName : sheets -> pyval -> world -> outcome sheet * world;
  getCount : sheets -> world -> outcome Z * world;
  insertNewByName : sheets -> pyval -> Z -> world -> outcome unit * world;
  remove : sheets -> sheet -> world -> outcome unit * world;

  (** One sheet. *)
  getName : sheet -> world -> outcome string * world;
  setName : sheet -> pyval -> world -> outcome unit * world;
  getCellRangeByName : sheet -> pyval -> world -> outcome cells * world;
  getCellByPosition : sheet -> Z -> Z -> world -> outcome cells * world;

  (** A cell or a range; [StartColumn] and [StartRow] are
      [range.RangeAddress.StartColumn] and [range.RangeAddress.StartRow]. *)
  StartColumn : cells -> world -> outcome Z * world;
  StartRow : cells -> world -> outcome Z * world;
  setValue : cells -> float -> world -> outcome unit * world;
  setString : cells -> string -> world -> outcome unit * world;
  getString : cells -> world -> outcome string * world;
  getValue : cells -> world -> outcome float * world;
  setFormula : cells -> pyval -> world -> outcome unit * world;
  getFormula : cells -> world -> outcome string * world;
  getDataArray : cells -> world -> outcome pyval * world;
  setPropertyValue : cells -> string -> pyval -> world -> outcome unit * world
}.

(** ** The environment object and the monad of its methods *)

Section Environment.
Context {H : Host}.

(** The attributes of a [LibreOfficeEnvironment]. *)
Record Self : Type := {
  _state : State;
  _reset_count : Z;
  _libreoffice_context : option context;
  _document : option document;
  _current_sheet : option sheet;
  _file_path : pyval;
  _temp_dir : option string;
  _initialized : bool;
  _base_excel : option string;
  _goal_excel : option string
}.

Definition set_state (v : State) (s : Self) : Self :=
  {| _state := v; _reset_count := _reset_count s;
     _libreoffice_context := _libreoffice_context s; _document := _document s;
     _current_sheet := _current_sheet s; _file_path := _file_path s;
     _temp_dir := _temp_dir s; _initialized := _initialized s;
     _base_excel := _base_excel s; _goal_excel := _goal_excel s |}.

Definition set_reset_count (v : Z) (s : Self) : Self :=
  {| _state := _state s; _reset_count := v;
     _libreoffice_context := _libreoffice_context s; _document := _document s;
     _current_sheet := _current_sheet s; _file_path := _file_path s;
     _temp_dir := _temp_dir s; _initialized := _initialized s;
     _base_excel := _base_excel s; _goal_excel := _goal_excel s |}.

Definition set_libreoffice_context (v : option context) (s : Self) : Self :=
  {| _state := _state s; _reset_count := _reset_count s;
     _libreoffice_context := v; _document := _document s;
     _current_sheet := _current_sheet s; _file_path := _file_path s;
     _temp_dir := _temp_dir s; _initialized := _initialized s;
     _base_excel := _base_excel s; _goal_excel := _goal_excel s |}.

Definition set_document (v : option document) (s : Self) : Self :=
  {| _state := _state s; _reset_count := _reset_count s;
     _libreoffice_context := _libreoffice_context s; _document := v;
     _current_sheet := _current_sheet s; _file_path := _file_path s;
     _temp_dir := _temp_dir s; _initialized := _initialized s;
     _base_excel := _base_excel s; _goal_excel := _goal_excel s |}.

Definition set_current_sheet (v : option sheet) (s : Self) : Self :=
  {| _state := _state s; _reset_count := _reset_count s;
     _libreoffice_context := _libreoffice_context s; _document := _document s;
     _current_sheet := v; _file_path := _file_path s;
     _temp_dir := _temp_dir s; _initialized := _initialized s;
     _base_excel := _base_excel s; _goal_excel := _goal_excel s |}.

Definition set_file_path (v : pyval) (s : Self) : Self :=
  {| _state := _state s; _reset_count := _reset_count s;
     _libreoffice_context := _libreoffice_context s; _document := _document s;
     _current_sheet := _current_sheet s; _file_path := v;
     _temp_dir := _temp_dir s; _initialized := _initialized s;
     _base_excel := _base_excel s; _goal_excel := _goal_excel s |}.

Definition set_temp_dir (v : option string) (s : Self) : Self :=
  {| _state := _state s; _reset_count := _reset_count s;
     _libreoffice_context := _libreoffice_context s; _document := _document s;
     _current_sheet := _current_sheet s; _file_path := _file_path s;
     _temp_dir := v; _initialized := _initialized s;
     _base_excel := _base_excel s; _goal_excel := _goal_excel s |}.

Definition set_initialized (v : bool) (s : Self) : Self :=
  {| _state := _state s; _reset_count := _reset_count s;
     _libreoffice_context := _libreoffice_context s; _document := _document s;
     _current_sheet := _current_sheet s; _file_path := _file_path s;
     _temp_dir := _temp_dir s; _initialized := v;
     _base_excel := _base_excel s; _goal_excel := _goal_excel s |}.

(** The state of the running process: the environment object, the lines
    printed so far (oldest first) and the world. *)
Record proc : Type := Proc {
  self : Self;
  stdout : list string;
  outside : world
}.

(** A method: from a process state to what it returns or raises, and the
    process state it leaves.  A raise keeps the effects made before it. *)
Definition M (A : Type) : Type := proc -> outcome A * proc.

#[export] Instance M_ret : MRet M := fun A a st => (Returned a, st).

#[export] Instance M_bind : MBind M := fun A B f m st =>
  match m st with
  | (Returned a, st') => f a st'
  | (Raised e, st') => (Raised e, st')
  end.

(** [raise cls(msg)]. *)
Definition raise {A} (cls : exn_class) (msg : string) : M A :=
  fun st => (Raised (Exn cls msg), st).

Definition reraise {A} (e : exn) : M A := fun st => (Raised e, st).

(** [try: body  except Exception as e: handler e]. *)
Definition try_except {A} (body : M A) (handler : exn -> M A) : M A :=
  fun st =>
    match body st with
    | (Returned a, st') => (Returned a, st')
    | (Raised e, st') => handler e st'
    end.

(** Reading and assigning the attributes of [self]. *)
Definition attr {A} (f : Self -> A) : M A := fun st => (Returned (f (self st)), st).

Definition assign (f : Self -> Self) : M unit :=
  fun st => (Returned tt, Proc (f (self st)) (stdout st) (outside st)).

(** [print(line)]. *)
Definition print (line : string) : M unit :=
  fun st => (Returned tt, Proc (self st) (List.app (stdout st) [line]) (outside st)).

(** A call into the host. *)
Definition call {A} (op : world -> outcome A * world) : M A :=
  fun st => let (r, w) := op (outside st) in (r, Proc (self st) (stdout st) w).

Definition call_total {A} (op : world -> A * world) : M A :=
  fun st => let (a, w) := op (outside st) in (Returned a, Proc (self st) (stdout st) w).

Definition effect (op : world -> world) : M unit :=
  fun st => (Returned tt, Proc (self st) (stdout st) (op (outside st))).

(** A pure expression of the runtime that may raise. *)
Definition eval {A} (r : outcome A) : M A := fun st => (r, st).

(** Calling a method of an attribute that is [None]:
    [AttributeError: 'NoneType' object has no attribute 'name']. *)
Definition deref {A} (o : option A) (name : string) : M A :=
  match o with
  | Some a => mret a
  | None => raise AttributeError ("'NoneType' object has no attribute '" ++ name ++ "'")
  end.

(** ** The Python expressions the methods use *)

(** [repr(v)] and [str(v)]; an f-string field [{v}] is [str(v)]. *)
Fixpoint repr (v : pyval) : string :=
  match v with
  | PNone => "None"
  | PBool true => "True"
  | PBool false => "False"
  | PInt z => str_of_int z
  | PFloat f => repr_float f
  | PStr s => repr_str s
  | PList l => "[" ++ join ", " (map repr l) ++ "]"
  | PDict d =>
      "{" ++ join ", " (map (fun kv => repr_str (fst kv) ++ ": " ++ repr (snd kv)) d) ++ "}"
  end.

Definition str (v : pyval) : string :=
  match v with
  | PStr s => s
  | _ => repr v
  end.

(** [str(m)] of an optional message. *)
Definition str_opt (m : option string) : string :=
  match m with
  | Some s => s
  | None => "None"
  end.

(** [float(v)], called on an [int], a [bool] or a [float]. *)
Definition to_float (v : pyval) : outcome float :=
  match v with
  | PBool true => Returned 1%float
  | PBool false => Returned 0%float
  | PInt z => float_of_int z
  | PFloat f => Returned f
  | _ => Raised (Exn TypeError
           ("float() argument must be a string or a real number, not '"
            ++ type_name v ++ "'"))
  end.

(** [s == v] for a string [s]. *)
Definition str_eq (s : string) (v : pyval) : bool :=
  match v with
  | PStr s' => String.eqb s s'
  | _ => false
  end.

(** [params.get(key)] and [params.get(key, default)]. *)
Definition get (params : gmap string pyval) (key : string) : pyval :=
  default PNone (params !! key).

Definition get_or (params : gmap string pyval) (key : string) (d : pyval) : pyval :=
  default d (params !! key).

(** The items a [for] loop draws from [v]. *)
Definition iter (v : pyval) : outcome (list pyval) :=
  match v with
  | PList l => Returned l
  | PStr s => Returned (map PStr (chars s))
  | PDict d => Returned (map (fun kv => PStr (fst kv)) d)
  | _ => Raised (Exn TypeError ("'" ++ type_name v ++ "' object is not iterable"))
  end.

(** [key in v]. *)
Definition py_in (key : string) (v : pyval) : outcome bool :=
  match v with
  | PDict d => Returned (existsb (fun kv => String.eqb key (fst kv)) d)
  | PList l => Returned (existsb (str_eq key) l)
  | PStr s => Returned (contains key s)
  | _ => Raised (Exn TypeError ("argument of type '" ++ type_name v ++ "' is not iterable"))
  end.

(** [v[key]] for a string [key]. *)
Definition getitem (v : pyval) (key : string) : outcome pyval :=
  match v with
  | PDict d =>
      match find (fun kv => String.eqb key (fst kv)) d with
      | Some kv => Returned (snd kv)
      | None => Raised (Exn KeyError (repr_str key))
      end
  | PList _ => Raised (Exn TypeError "list indices must be integers or slices, not str")
  | PStr _ => Raised (Exn TypeError "string indices must be integers")
  | _ => Raised (Exn TypeError ("'" ++ type_name v ++ "' object is not subscriptable"))
  end.

(** [range(n)]. *)
Definition range (n : Z) : list Z := map Z.of_nat (seq 0 (Z.to_nat n)).

(** [for i, x in enumerate(l): body i x], counting from [i]. *)
Fixpoint for_enumerate {A} (i : Z) (l : list A) (body : Z -> A -> M unit) : M unit :=
  match l with
  | [] => mret tt
  | x :: rest => body i x;; for_enumerate (i + 1) rest body
  end.

(** [if o:] for an attribute holding a handle or [None], and for one holding
    a string or [None]. *)
Definition nonempty (o : option string) : bool :=
  match o with
  | Some s => negb (String.eqb s "")
  | None => false
  end.

(** ** The methods of [LibreOfficeEnvironment] *)

(** [__init__(base_excel, goal_excel)]. *)
Definition __init__ (base_excel goal_excel : option string) (w : world) : proc :=
  let (id, w') := uuid4 w in
  {| self := {| _state := {| episode_id := id; step_count := 0 |};
                _reset_count := 0;
                _libreoffice_context := None;
                _document := None;
                _current_sheet := None;
                _file_path := PNone;
                _temp_dir := None;
                _initialized := false;
                _base_excel := base_excel;
                _goal_excel := goal_excel |};
     stdout := [];
     outside := w' |}.

Definition _cleanup_libreoffice : M unit :=
  try_except
    (d ← attr _document;
     match d with
     | Some doc => call (close_document doc);; assign (set_document None)
     | None => mret tt
     end;;
     t ← attr _temp_dir;
     match t with
     | Some dir =>
         if nonempty t then
           there ← call (path_exists (PStr dir));
           if there : bool then call (rmtree dir);; assign (set_temp_dir None)
           else mret tt
         else mret tt
     | None => mret tt
     end)
    (fun e => print ("Error during cleanup: " ++ exn_str e)).

Definition _get_sheet (sheet_name : pyval) : M (option sheet) :=
  match sheet_name with
  | PNone => attr _current_sheet
  | _ =>
      d ← attr _document;
      doc ← deref d "getSheets";
      shs ← call (getSheets doc);
      try_except
        (s ← call (getByName shs sheet_name); mret (Some s))
        (fun _ => attr _current_sheet)
  end.

(** [[sheets.getByIndex(i).getName() for i in range(sheets.getCount())]]. *)
Fixpoint names_at (shs : sheets) (indices : list Z) : M (list string) :=
  match indices with
  | [] => mret []
  | i :: rest =>
      s ← call (getByIndex shs i);
      n ← call (getName s);
      ns ← names_at shs rest;
      mret (n :: ns)
  end.

Definition all_sheet_names (shs : sheets) : M (list string) :=
  count ← call (getCount shs);
  names_at shs (range count).

Definition _create_sheet (params : gmap string pyval) : M LibreOfficeObservation :=
  cs ← attr _current_sheet;
  s ← deref cs "getName";
  name ← call (getName s);
  cs' ← attr _current_sheet;
  s' ← deref cs' "getName";
  name' ← call (getName s');
  mret (observation "New spreadsheet created" true
        |> with_current_sheet (PStr name)
        |> with_sheet_names [name']).

Definition _open_file (params : gmap string pyval) : M LibreOfficeObservation :=
  let file_path := get params "file_path" in
  if negb (truthy file_path) then
    mret (observation "No file path provided" false
          |> with_error_message "file_path parameter is required")
  else
    try_except
      (path ← call (abspath file_path);
       file_url ← call (systemPathToFileUrl path);
       d ← attr _document;
       match d with
       | Some doc => call (close_document doc)
       | None => mret tt
       end;;
       c ← attr _libreoffice_context;
       ctx ← deref c "getServiceManager";
       dk ← call (createDesktop ctx);
       desk ← deref dk "loadComponentFromURL";
       loaded ← call (loadComponentFromURL desk file_url);
       assign (set_document loaded);;
       match loaded with
       | None =>
           mret (observation "Failed to open file" false
                 |> with_error_message "Could not open the specified file")
       | Some doc =>
           shs ← call (getSheets doc);
           first ← call (getByIndex shs 0);
           assign (set_current_sheet (Some first));;
           assign (set_file_path file_path);;
           names ← all_sheet_names shs;
           name ← call (getName first);
           mret (observation ("File opened successfully: " ++ str file_path) true
                 |> with_current_sheet (PStr name)
                 |> with_sheet_names names
                 |> with_file_path file_path)
       end)
      (fun e =>
         mret (observation ("Error opening file: " ++ exn_str e) false
               |> with_error_message (exn_str e))).

Definition _save_file (params : gmap string pyval) : M LibreOfficeObservation :=
  let file_path := get params "file_path" in
  if negb (truthy file_path) then
    mret (observation "No file path provided" false
          |> with_error_message "file_path parameter is required")
  else
    try_except
      (path ← call (abspath file_path);
       file_url ← call (systemPathToFileUrl path);
       d ← attr _document;
       doc ← deref d "storeAsURL";
       call (storeAsURL doc file_url);;
       assign (set_file_path file_path);;
       mret (observation ("File saved successfully: " ++ str file_path) true
             |> with_file_path file_path))
      (fun e =>
         mret (observation ("Error saving file: " ++ exn_str e) false
               |> with_error_message (exn_str e))).

(** The write shared by [_set_cell] and [_set_range]:
    [setValue(float(value))] for a number, [setString(str(value))]
    otherwise. *)
Definition write_value (target : cells) (value : pyval) : M unit :=
  if is_int_or_float value then
    f ← eval (to_float value); call (setValue target f)
  else
    call (setString target (str value)).

Definition _set_cell (params : gmap string pyval) : M LibreOfficeObservation :=
  let cell := get params "cell" in
  let value := get params "value" in
  let sheet_name := get params "sheet" in
  if negb (truthy cell) then
    mret (observation "No cell specified" false
          |> with_error_message "cell parameter is required")
  else
    try_except
      (sh ← _get_sheet sheet_name;
       sheet ← deref sh "getCellRangeByName";
       cell_range ← call (getCellRangeByName sheet cell);
       write_value cell_range value;;
       name ← call (getName sheet);
       mret (observation ("Cell " ++ str cell ++ " set to " ++ str value) true
             |> with_current_sheet (PStr name)))
      (fun e =>
         mret (observation ("Error setting cell: " ++ exn_str e) false
               |> with_error_message (exn_str e))).

Definition _get_cell (params : gmap string pyval) : M LibreOfficeObservation :=
  let cell := get params "cell" in
  let sheet_name := get params "sheet" in
  if negb (truthy cell) then
    mret (observation "No cell specified" false
          |> with_error_message "cell parameter is required")
  else
    try_except
      (sh ← _get_sheet sheet_name;
       sheet ← deref sh "getCellRangeByName";
       cell_range ← call (getCellRangeByName sheet cell);
       text ← call (getString cell_range);
       value ← (if negb (String.eqb (strip text) "") then mret (PStr text)
                else v ← call (getValue cell_range); mret (PFloat v));
       name ← call (getName sheet);
       mret (observation ("Retrieved value from cell " ++ str cell) true
             |> with_data value
             |> with_current_sheet (PStr name)))
      (fun e =>
         mret (observation ("Error getting cell: " ++ exn_str e) false
               |> with_error_message (exn_str e))).

Definition _set_range (params : gmap string pyval) : M LibreOfficeObservation :=
  let range_name := get params "range" in
  let values := get params "values" in
  let sheet_name := get params "sheet" in
  if negb (truthy range_name) || negb (truthy values) then
    mret (observation "Range and values required" false
          |> with_error_message "range and values parameters are required")
  else
    try_except
      (sh ← _get_sheet sheet_name;
       sheet ← deref sh "getCellRangeByName";
       base_range ← call (getCellRangeByName sheet range_name);
       start_col ← call (StartColumn base_range);
       start_row ← call (StartRow base_range);
       rows ← eval (iter values);
       for_enumerate 0 rows (fun i row =>
         items ← eval (iter row);
         for_enumerate 0 items (fun j value =>
           cell ← call (getCellByPosition sheet (start_col + j) (start_row + i));
           write_value cell value));;
       name ← call (getName sheet);
       mret (observation ("Range " ++ str range_name ++ " set successfully.") true
             |> with_current_sheet (PStr name)))
      (fun e =>
         mret (observation ("Error setting range: " ++ exn_str e) false
               |> with_error_message (exn_str e))).

Definition _get_range (params : gmap string pyval) : M LibreOfficeObservation :=
  let range_name := get params "range" in
  let sheet_name := get params "sheet" in
  if negb (truthy range_name) then
    mret (observation "No range specified" false
          |> with_error_message "range parameter is required")
  else
    try_except
      (sh ← _get_sheet sheet_name;
       sheet ← deref sh "getCellRangeByName";
       cell_range ← call (getCellRangeByName sheet range_name);
       data_array ← call (getDataArray cell_range);
       name ← call (getName sheet);
       mret (observation ("Retrieved data from range " ++ str range_name) true
             |> with_data data_array
             |> with_current_sheet (PStr name)))
      (fun e =>
         mret (observation ("Error getting range: " ++ exn_str e) false
               |> with_error_message (exn_str e))).

Definition _set_formula (params : gmap string pyval) : M LibreOfficeObservation :=
  let cell := get params "cell" in
  let formula := get params "formula" in
  let sheet_name := get params "sheet" in
  if negb (truthy cell) || negb (truthy formula) then
    mret (observation "Cell and formula required" false
          |> with_error_message "cell and formula parameters are required")
  else
    try_except
      (sh ← _get_sheet sheet_name;
       sheet ← deref sh "getCellRangeByName";
       cell_range ← call (getCellRangeByName sheet cell);
       call (setFormula cell_range formula);;
       name ← call (getName sheet);
       mret (observation ("Formula set in cell " ++ str cell ++ ": " ++ str formula) true
             |> with_current_sheet (PStr name)))
      (fun e =>
         mret (observation ("Error setting formula: " ++ exn_str e) false
               |> with_error_message (exn_str e))).

Definition _get_formula (params : gmap string pyval) : M LibreOfficeObservation :=
  let cell := get params "cell" in
  let sheet_name := get params "sheet" in
  if negb (truthy cell) then
    mret (observation "No cell specified" false
          |> with_error_message "cell parameter is required")
  else
    try_except
      (sh ← _get_sheet sheet_name;
       sheet ← deref sh "getCellRangeByName";
       cell_range ← call (getCellRangeByName sheet cell);
       formula ← call (getFormula cell_range);
       name ← call (getName sheet);
       mret (observation ("Retrieved formula from cell " ++ str cell) true
             |> with_data (PStr formula)
             |> with_current_sheet (PStr name)))
      (fun e =>
         mret (observation ("Error getting formula: " ++ exn_str e) false
               |> with_error_message (exn_str e))).

(** The default of [params.get("name", f"Sheet{count + 1}")]. *)
Definition default_sheet_name (count : Z) : string :=
  "Sheet" ++ str_of_int (count + 1).

(** The default sheet name is an argument of [params.get]: it is computed,
    outside the [try], whether or not a name was given. *)
Definition _add_sheet (params : gmap string pyval) : M LibreOfficeObservation :=
  d ← attr _document;
  doc ← deref d "getSheets";
  shs ← call (getSheets doc);
  count ← call (getCount shs);
  let sheet_name := get_or params "name" (PStr (default_sheet_name count)) in
  try_except
    (d' ← attr _document;
     doc' ← deref d' "getSheets";
     sheets ← call (getSheets doc');
     position ← call (getCount sheets);
     call (insertNewByName sheets sheet_name position);;
     names ← all_sheet_names sheets;
     mret (observation ("Sheet '" ++ str sheet_name ++ "' added successfully") true
           |> with_current_sheet sheet_name
           |> with_sheet_names names))
    (fun e =>
       mret (observation ("Error adding sheet: " ++ exn_str e) false
             |> with_error_message (exn_str e))).

Definition _delete_sheet (params : gmap string pyval) : M LibreOfficeObservation :=
  let sheet_name := get params "name" in
  if negb (truthy sheet_name) then
    mret (observation "No sheet name specified" false
          |> with_error_message "name parameter is required")
  else
    try_except
      (d ← attr _document;
       doc ← deref d "getSheets";
       sheets ← call (getSheets doc);
       sheet ← call (getByName sheets sheet_name);
       call (remove sheets sheet);;
       cs ← attr _current_sheet;
       current ← deref cs "getName";
       current_name ← call (getName current);
       (if str_eq current_name sheet_name then
          first ← call (getByIndex sheets 0);
          assign (set_current_sheet (Some first))
        else mret tt);;
       names ← all_sheet_names sheets;
       cs' ← attr _current_sheet;
       current' ← deref cs' "getName";
       name ← call (getName current');
       mret (observation ("Sheet '" ++ str sheet_name ++ "' deleted successfully") true
             |> with_current_sheet (PStr name)
             |> with_sheet_names names))
      (fun e =>
         mret (observation ("Error deleting sheet: " ++ exn_str e) false
               |> with_error_message (exn_str e))).

Definition _rename_sheet (params : gmap string pyval) : M LibreOfficeObservation :=
  let old_name := get params "old_name" in
  let new_name := get params "new_name" in
  if negb (truthy old_name) || negb (truthy new_name) then
    mret (observation "Old and new names required" false
          |> with_error_message "old_name and new_name parameters are required")
  else
    try_except
      (d ← attr _document;
       doc ← deref d "getSheets";
       sheets ← call (getSheets doc);
       sheet ← call (getByName sheets old_name);
       call (setName sheet new_name);;
       cs ← attr _current_sheet;
       current ← deref cs "getName";
       current_name ← call (getName current);
       (if str_eq current_name old_name then assign (set_current_sheet (Some sheet))
        else mret tt);;
       names ← all_sheet_names sheets;
       mret (observation
               ("Sheet renamed from '" ++ str old_name ++ "' to '" ++ str new_name ++ "'") true
             |> with_current_sheet new_name
             |> with_sheet_names names))
      (fun e =>
         mret (observation ("Error renaming sheet: " ++ exn_str e) false
               |> with_error_message (exn_str e))).

(** [int(color[1:], 16)] when [color] is a string that starts with [#],
    [color] itself otherwise. *)
Definition char_color (color : pyval) : outcome pyval :=
  match color with
  | PStr s =>
      match drop_prefix "#" s with
      | Some digits =>
          match int_base16 digits with
          | Returned z => Returned (PInt z)
          | Raised e => Raised e
          end
      | None => Returned color
      end
  | _ => Returned color
  end.

Definition _format_cell (params : gmap string pyval) : M LibreOfficeObservation :=
  let cell := get params "cell" in
  let format_options := get_or params "format_options" (PDict []) in
  let sheet_name := get params "sheet" in
  if negb (truthy cell) then
    mret (observation "No cell specified" false
          |> with_error_message "cell parameter is required")
  else
    try_except
      (sh ← _get_sheet sheet_name;
       sheet ← deref sh "getCellRangeByName";
       cell_range ← call (getCellRangeByName sheet cell);
       has_bold ← eval (py_in "bold" format_options);
       (if has_bold : bool then
          bold ← eval (getitem format_options "bold");
          call (setPropertyValue cell_range "CharWeight"
                  (PInt (if truthy bold then 150 else 100)))
        else mret tt);;
       has_italic ← eval (py_in "italic" format_options);
       (if has_italic : bool then
          italic ← eval (getitem format_options "italic");
          call (setPropertyValue cell_range "CharPosture"
                  (PInt (if truthy italic then 1 else 0)))
        else mret tt);;
       has_color ← eval (py_in "color" format_options);
       (if has_color : bool then
          color ← eval (getitem format_options "color");
          color' ← eval (char_color color);
          call (setPropertyValue cell_range "CharColor" color')
        else mret tt);;
       name ← call (getName sheet);
       mret (observation ("Cell " ++ str cell ++ " formatted successfully") true
             |> with_current_sheet (PStr name)))
      (fun e =>
         mret (observation ("Error formatting cell: " ++ exn_str e) false
               |> with_error_message (exn_str e))).

Definition _export_pdf (params : gmap string pyval) : M LibreOfficeObservation :=
  let file_path := get params "file_path" in
  if negb (truthy file_path) then
    mret (observation "No file path provided" false
          |> with_error_message "file_path parameter is required")
  else
    try_except
      (dir ← call (dirname file_path);
       call (makedirs dir);;
       dir' ← call (dirname file_path);
       writable ← call (access_W_OK dir');
       if negb writable then
         dir'' ← call (dirname file_path);
         mret (observation ("Directory not writable: " ++ dir'') false
               |> with_error_message "Target directory is not writable")
       else
         path ← call (abspath file_path);
         file_url ← call (systemPathToFileUrl path);
         let filter_props :=
           [("FilterName", PStr "calc_pdf_Export"); ("Overwrite", PBool true)] in
         d ← attr _document;
         doc ← deref d "storeToURL";
         call (storeToURL doc file_url (PropertyValues filter_props));;
         file_exists ← call (path_exists file_path);
         mret (observation
                 (if file_exists : bool then "PDF export completed"
                  else "Export command issued but file not found")
                 file_exists
               |> with_data (PDict [("exported_file", file_path)])))
      (fun e =>
         effect (print_exc e);;
         mret (observation ("Error exporting PDF: " ++ exn_str e) false
               |> with_error_message (exn_str e))).

Definition _export_csv (params : gmap string pyval) : M LibreOfficeObservation :=
  let file_path := get params "file_path" in
  let sheet_name := get params "sheet" in
  if negb (truthy file_path) then
    mret (observation "No file path provided" false
          |> with_error_message "file_path parameter is required")
  else
    try_except
      (path ← call (abspath file_path);
       file_url ← call (systemPathToFileUrl path);
       let filter_props :=
         [("FilterName", "Text - txt - csv (StarCalc)");
          ("FilterOptions", "44,34,0,1,1")] in
       d ← attr _document;
       doc ← deref d "storeToURL";
       call (storeToURL doc file_url (Tuples filter_props));;
       mret (observation ("CSV exported successfully: " ++ str file_path) true
             |> with_data (PDict [("exported_file", file_path)])))
      (fun e =>
         mret (observation ("Error exporting CSV: " ++ exn_str e) false
               |> with_error_message (exn_str e))).

(** The commands [_execute_command] dispatches, in the order of its
    [if]/[elif] chain. *)
Definition handlers : list (string * (gmap string pyval -> M LibreOfficeObservation)) :=
  [ ("create_sheet", _create_sheet);
    ("open_file", _open_file);
    ("save_file", _save_file);
    ("set_cell", _set_cell);
    ("get_cell", _get_cell);
    ("set_range", _set_range);
    ("get_range", _get_range);
    ("set_formula", _set_formula);
    ("get_formula", _get_formula);
    ("add_sheet", _add_sheet);
    ("delete_sheet", _delete_sheet);
    ("rename_sheet", _rename_sheet);
    ("format_cell", _format_cell);
    ("export_pdf", _export_pdf);
    ("export_csv", _export_csv) ].

(** [if command == c1: return h1(params) elif ... else: return unknown]. *)
Fixpoint dispatch (chain : list (string * (gmap string pyval -> M LibreOfficeObservation)))
    (command : string) (params : gmap string pyval) : M LibreOfficeObservation :=
  match chain with
  | (name, handler) :: rest =>
      if String.eqb command name then handler params
      else dispatch rest command params
  | [] =>
      mret (observation ("Unknown command: " ++ command) false
            |> with_error_message ("Command '" ++ command ++ "' not supported"))
  end.

(** [action.parameters or {}] is [action.parameters]: an empty dict for an
    empty dict. *)
Definition _execute_command (action : LibreOfficeAction) : M LibreOfficeObservation :=
  initialized ← attr _initialized;
  if negb initialized then
    mret (observation "LibreOffice not initialized" false
          |> with_error_message "LibreOffice connection failed")
  else
    try_except
      (let command := command action in
       let params := parameters action in
       dispatch handlers command params)
      (fun e =>
         mret (observation ("Error executing command: " ++ exn_str e) false
               |> with_error_message (exn_str e))).

Definition connection_url : string :=
  "uno:socket,host=localhost,port=2002;urp;StarOffice.ComponentContext".

(** [for attempt in range(10): try: ... break  except ...  else: raise]. *)
Fixpoint connect (resolver : url_resolver) (attempts : list Z) : M unit :=
  match attempts with
  | [] => raise RuntimeError "Could not connect to LibreOffice UNO socket."
  | attempt :: rest =>
      connected ←
        try_except
          (ctx ← call (resolve resolver connection_url);
           assign (set_libreoffice_context (Some ctx));;
           print "✅ Connected to LibreOffice UNO service.";;
           mret true)
          (fun e =>
             match exn_cls e with
             | NoConnectException =>
                 print ("⚠️  LibreOffice not ready (try " ++ str_of_int (attempt + 1)
                        ++ "/10)...");;
                 effect (sleep 1.5);;
                 mret false
             | UnoException =>
                 print ("⚠️  UNO Exception: " ++ exn_str e);;
                 effect (sleep 1.5);;
                 mret false
             | _ => reraise e
             end);
      if connected : bool then mret tt else connect resolver rest
  end.

Definition _initialize_libreoffice : M bool :=
  print "🔧 Initializing LibreOffice environment...";;
  try_except
    (print ("🔌 Attempting to connect to LibreOffice UNO service at " ++ connection_url);;
     print "⏳ Waiting for LibreOffice to be ready...";;
     local_ctx ← call getComponentContext;
     print "✅ Obtained local UNO component context.";;
     resolver ← call (createUnoUrlResolver local_ctx);
     connect resolver (range 10);;
     c ← attr _libreoffice_context;
     ctx ← deref c "getServiceManager";
     dk ← call (createDesktop ctx);
     desk ← deref dk "loadComponentFromURL";
     created ← call (loadComponentFromURL desk "private:factory/scalc");
     assign (set_document created);;
     match created with
     | None =>
         print "❌ Failed to create spreadsheet document.";;
         mret false
     | Some doc =>
         shs ← call (getSheets doc);
         first ← call (getByIndex shs 0);
         assign (set_current_sheet (Some first));;
         dir ← call (mkdtemp "libreoffice_env_");
         assign (set_temp_dir (Some dir));;
         assign (set_initialized true);;
         print "✅ LibreOffice environment initialized successfully.";;
         base ← attr _base_excel;
         there ← (if nonempty base then call (path_exists (PStr (default "" base)))
                  else mret false);
         (if there : bool then
            print ("📂 Loading base Excel file: " ++ default "" base);;
            open_obs ← _open_file {[ "file_path" := PStr (default "" base) ]};
            if negb (success open_obs) then
              print ("⚠️ Warning: Failed to open base Excel file: "
                     ++ str_opt (error_message open_obs))
            else mret tt
          else
            print "ℹ️ No base Excel file provided, starting with a new sheet.");;
         mret true
     end)
    (fun e =>
       print ("❌ Failed to initialize LibreOffice: " ++ exn_str e);;
       effect (print_exc e);;
       mret false).

Definition reset : M LibreOfficeObservation :=
  print "♻️  Resetting LibreOffice environment...";;
  _cleanup_libreoffice;;
  id ← call_total uuid4;
  assign (set_state {| episode_id := id; step_count := 0 |});;
  assign (fun s => set_reset_count (_reset_count s + 1) s);;
  initialized ← _initialize_libreoffice;
  if initialized : bool then
    cs ← attr _current_sheet;
    names ← match cs with
            | Some s => name ← call (getName s); mret [name]
            | None => mret []
            end;
    cs' ← attr _current_sheet;
    current ← match cs' with
              | Some s => name ← call (getName s); mret (PStr name)
              | None => mret PNone
              end;
    mret (observation "LibreOffice environment ready!" true
          |> with_current_sheet current
          |> with_sheet_names names
          |> with_done false
          |> with_reward 0.0)
  else
    mret (observation "Failed to initialize LibreOffice" false
          |> with_error_message "Could not connect to LibreOffice"
          |> with_done false
          |> with_reward 0.0).

Definition step (action : LibreOfficeAction) : M LibreOfficeObservation :=
  assign (fun s =>
    set_state {| episode_id := episode_id (_state s);
                 step_count := step_count (_state s) + 1 |} s);;
  observation ← _execute_command action;
  st ← attr _state;
  let observation :=
    observation |> with_metadata
      {[ "step" := PInt (step_count st);
         "command" := PStr (command action);
         "episode_id" := PStr (episode_id st) ]} in
  let observation :=
    observation |> with_reward (if success observation then 1.0 else -0.1) in
  let observation := observation |> with_done false in
  mret observation.

(** The [state] property. *)
Definition state : M State := attr _state.

(** The three guarded blocks of [close], in the order in which [close] runs
    them: closing the document, terminating the desktop, saving to the goal
    path. *)
Definition close_open_document : M unit :=
  d ← attr _document;
  match d with
  | Some doc =>
      try_except
        (call (close_document doc);;
         assign (set_document None);;
         print "✅ Document closed.")
        (fun e => print ("⚠️ Error closing document: " ++ exn_str e))
  | None => mret tt
  end.

Definition terminate_desktop : M unit :=
  c ← attr _libreoffice_context;
  match c with
  | Some ctx =>
      try_except
        (dk ← call (createDesktop ctx);
         match dk with
         | Some desk =>
             call (terminate desk);;
             print "✅ LibreOffice desktop terminated."
         | None => mret tt
         end)
        (fun e => print ("⚠️ Error terminating LibreOffice: " ++ exn_str e))
  | None => mret tt
  end.

Definition save_goal : M unit :=
  goal ← attr _goal_excel;
  if nonempty goal then
    print ("💾 Saving final Excel output to: " ++ default "" goal);;
    try_except
      (save_obs ← _save_file {[ "file_path" := PStr (default "" goal) ]};
       if success save_obs then print "✅ Final Excel file saved successfully."
       else print ("⚠️ Could not save goal Excel file: "
                   ++ str_opt (error_message save_obs)))
      (fun e => print ("⚠️ Error during goal Excel save: " ++ exn_str e))
  else mret tt.

Definition close : M LibreOfficeObservation :=
  print "🧹 Closing LibreOffice environment...";;
  try_except
    (close_open_document;;
     terminate_desktop;;
     save_goal;;
     _cleanup_libreoffice;;
     assign (set_initialized false);;
     mret (observation "LibreOffice environment closed successfully." true))
    (fun e =>
       mret (observation ("Error during close: " ++ exn_str e) false
             |> with_error_message (exn_str e))).

Definition __del__ : M unit := _cleanup_libreoffice.

End Environment.

(** ** The vocabulary of the statements *)

Section Vocabulary.
Context {H : Host}.

(** [returns m]: [m] never raises. *)
Definition returns {A} (m : M A) : Prop :=
  forall st, exists a st', m st = (Returned a, st').

(** [maintains I m]: running [m] from an environment object that satisfies
    [I] leaves one that satisfies [I], whether [m] returns or raises. *)
Definition maintains {A} (I : Self -> Prop) (m : M A) : Prop :=
  forall st, I (self st) -> I (self (snd (m st))).

(** [post P m]: whatever [m] returns satisfies [P]. *)
Definition post {A} (P : A -> Prop) (m : M A) : Prop :=
  forall st a st', m st = (Returned a, st') -> P a.

(** [dispatched c]: [c] is one of the commands of the [if]/[elif] chain. *)
Definition dispatched (c : string) : bool :=
  existsb (String.eqb c) (map fst handlers).

(** The state [step] leaves when the command touches nothing: one more
    step counted. *)
Definition counted (st : proc) : proc :=
  Proc (set_state {| episode_id := episode_id (_state (self st));
                     step_count := step_count (_state (self st)) + 1 |} (self st))
       (stdout st) (outside st).

(** The two directions of "an error message is present iff the operation
    failed". *)
Definition message_means_failure (obs : LibreOfficeObservation) : Prop :=
  error_message obs <> None -> success obs = false.

Definition failure_has_message (obs : LibreOfficeObservation) : Prop :=
  success obs = false -> error_message obs <> None.

(** Calling [step] with each action of a list in turn, as the test scripts
    do; the state it leaves. *)
Definition run_steps (actions : list LibreOfficeAction) (st : proc) : proc :=
  fold_left (fun st action => snd (step action st)) actions st.

(** The attributes that only [__init__], [reset] and [close] assign. *)
Definition session (s : Self)
    : Z * option context * option string * bool * option string * option string :=
  (_reset_count s, _libreoffice_context s, _temp_dir s, _initialized s,
   _base_excel s, _goal_excel s).

(** The parameter checks that open the handlers: the command, the keys whose
    values must all be true ([if not a or not b]), and the [result] and
    [error_message] of the observation returned when one is not.
    [create_sheet] and [add_sheet] check nothing. *)
Definition required : list (string * list string * string * string) :=
  [ ("open_file", ["file_path"],
     "No file path provided", "file_path parameter is required");
    ("save_file", ["file_path"],
     "No file path provided", "file_path parameter is required");
    ("set_cell", ["cell"], "No cell specified", "cell parameter is required");
    ("get_cell", ["cell"], "No cell specified", "cell parameter is required");
    ("set_range", ["range"; "values"],
     "Range and values required", "range and values parameters are required");
    ("get_range", ["range"], "No range specified", "range parameter is required");
    ("set_formula", ["cell"; "formula"],
     "Cell and formula required", "cell and formula parameters are required");
    ("get_formula", ["cell"], "No cell specified", "cell parameter is required");
    ("delete_sheet", ["name"],
     "No sheet name specified", "name parameter is required");
    ("rename_sheet", ["old_name"; "new_name"],
     "Old and new names required", "old_name and new_name parameters are required");
    ("format_cell", ["cell"], "No cell specified", "cell parameter is required");
    ("export_pdf", ["file_path"],
     "No file path provided", "file_path parameter is required");
    ("export_csv", ["file_path"],
     "No file path provided", "file_path parameter is required") ].

(** What [step] makes of the observation [obs] of a handler that left the
    state [st']. *)
Definition completed (action : LibreOfficeAction) (st' : proc)
    (obs : LibreOfficeObservation) : LibreOfficeObservation :=
  obs
  |> with_metadata
       {[ "step" := PInt (step_count (_state (self st')));
          "command" := PStr (command action);
          "episode_id" := PStr (episode_id (_state (self st'))) ]}
  |> with_reward (if success obs then 1.0 else -0.1)
  |> with_done false.

(** The attributes that [_cleanup_libreoffice] and [_initialize_libreoffice]
    never assign. *)
Definition episode (s : Self) : State * Z * option string * option string :=
  (_state s, _reset_count s, _base_excel s, _goal_excel s).

(** The observation [close] returns. *)
Definition closed : LibreOfficeObservation :=
  observation "LibreOffice environment closed successfully." true.

(** The observation of a command that arrives before a successful reset. *)
Definition refused_step : LibreOfficeObservation :=
  observation "LibreOffice not initialized" false
  |> with_error_message "LibreOffice connection failed".

(** The line [connect] prints when attempt [attempt] is refused. *)
Definition not_ready (attempt : Z) : string :=
  "⚠️  LibreOffice not ready (try " ++ str_of_int (attempt + 1) ++ "/10)...".

End Vocabulary.

(** ** The convenience methods of the client ([client.py])

    Each method of [LibreOfficeEnv] builds an action and hands it to
    [self.step]; the HTTP exchange of [HTTPEnvClient] is outside the module.
    These are the actions built. *)
Module Client.

(** [if sheet: params["sheet"] = sheet]. *)
Definition with_sheet (sheet : pyval) (params : gmap string pyval) : gmap string pyval :=
  if truthy sheet then <["sheet" := sheet]> params else params.

Definition set_cell (cell value sheet : pyval) : LibreOfficeAction :=
  {| command := "set_cell";
     parameters := with_sheet sheet {[ "cell" := cell; "value" := value ]} |}.

Definition get_cell (cell sheet : pyval) : LibreOfficeAction :=
  {| command := "get_cell"; parameters := with_sheet sheet {[ "cell" := cell ]} |}.

Definition set_range (range_name values sheet : pyval) : LibreOfficeAction :=
  {| command := "set_range";
     parameters := with_sheet sheet {[ "range" := range_name; "values" := values ]} |}.

Definition get_range (range_name sheet : pyval) : LibreOfficeAction :=
  {| command := "get_range"; parameters := with_sheet sheet {[ "range" := range_name ]} |}.

Definition set_formula (cell formula sheet : pyval) : LibreOfficeAction :=
  {| command := "set_formula";
     parameters := with_sheet sheet {[ "cell" := cell; "formula" := formula ]} |}.

Definition get_formula (cell sheet : pyval) : LibreOfficeAction :=
  {| command := "get_formula"; parameters := with_sheet sheet {[ "cell" := cell ]} |}.

Definition open_file (file_path : pyval) : LibreOfficeAction :=
  {| command := "open_file"; parameters := {[ "file_path" := file_path ]} |}.

Definition save_file (file_path : pyval) : LibreOfficeAction :=
  {| command := "save_file"; parameters := {[ "file_path" := file_path ]} |}.

(** [params = {}; if name: params["name"] = name]. *)
Definition add_sheet (name : pyval) : LibreOfficeAction :=
  {| command := "add_sheet";
     parameters := if truthy name then {[ "name" := name ]} else ∅ |}.

Definition delete_sheet (name : pyval) : LibreOfficeAction :=
  {| command := "delete_sheet"; parameters := {[ "name" := name ]} |}.

Definition rename_sheet (old_name new_name : pyval) : LibreOfficeAction :=
  {| command := "rename_sheet";
     parameters := {[ "old_name" := old_name; "new_name" := new_name ]} |}.

Definition format_cell (cell format_options sheet : pyval) : LibreOfficeAction :=
  {| command := "format_cell";
     parameters :=
       with_sheet sheet {[ "cell" := cell; "format_options" := format_options ]} |}.

Definition export_pdf (file_path : pyval) : LibreOfficeAction :=
  {| command := "export_pdf"; parameters := {[ "file_path" := file_path ]} |}.

Definition export_csv (file_path : pyval) : LibreOfficeAction :=
  {| command := "export_csv"; parameters := {[ "file_path" := file_path ]} |}.

(** The convenience methods: the action each one sends, beside the
    arguments its signature requires. *)
Definition methods
    (cell value range_name values formula file_path name old_name new_name
     format_options sheet : pyval) : list (LibreOfficeAction * list pyval) :=
  [ (set_cell cell value sheet, [cell; value]);
    (get_cell cell sheet, [cell]);
    (set_range range_name values sheet, [range_name; values]);
    (get_range range_name sheet, [range_name]);
    (set_formula cell formula sheet, [cell; formula]);
    (get_formula cell sheet, [cell]);
    (open_file file_path, [file_path]);
    (save_file file_path, [file_path]);
    (add_sheet name, []);
    (delete_sheet name, [name]);
    (rename_sheet old_name new_name, [old_name; new_name]);
    (format_cell cell format_options sheet, [cell; format_options]);
    (export_pdf file_path, [file_path]);
    (export_csv file_path, [file_path]) ].

(** The methods that take an optional [sheet]. *)
Definition on_sheet
    (cell value range_name values formula format_options sheet : pyval) :
    list LibreOfficeAction :=
  [ set_cell cell value sheet;
    get_cell cell sheet;
    set_range range_name values sheet;
    get_range range_name sheet;
    set_formula cell formula sheet;
    get_formula cell sheet;
    format_cell cell format_options sheet ].

End Client.

(** ** A simulated host

    One host, small enough to evaluate: an office that holds open documents
    as lists of named sheets of cells, and a disk.  It does not recalculate
    formulas and keeps no cell formats. *)
Module Sim.

(** What a cell holds. *)
Inductive content : Type :=
| Empty
| Number (f : float)
| Text (s : string)
| Formula (s : string).

Record tab : Type := {
  tab_id : nat;
  tab_name : string;
  tab_cells : list ((Z * Z) * content)
}.

(** A file on the disk: a stored spreadsheet, or anything else (a directory,
    an exported PDF). *)
Inductive file : Type :=
| Spreadsheet (tabs : list tab)
| Other.

Record office : Type := {
  listening : list bool;
  running : bool;
  documents : list (nat * list tab);
  fresh : nat;
  disk : list (string * file);
  pdf_filter : bool;
  stderr : list string
}.

Definition with_listening (v : list bool) (w : office) : office :=
  {| listening := v; running := running w; documents := documents w;
     fresh := fresh w; disk := disk w; pdf_filter := pdf_filter w;
     stderr := stderr w |}.

Definition with_running (v : bool) (w : office) : office :=
  {| listening := listening w; running := v; documents := documents w;
     fresh := fresh w; disk := disk w; pdf_filter := pdf_filter w;
     stderr := stderr w |}.

Definition with_documents (v : list (nat * list tab)) (w : office) : office :=
  {| listening := listening w; running := running w; documents := v;
     fresh := fresh w; disk := disk w; pdf_filter := pdf_filter w;
     stderr := stderr w |}.

Definition with_fresh (v : nat) (w : office) : office :=
  {| listening := listening w; running := running w; documents := documents w;
     fresh := v; disk := disk w; pdf_filter := pdf_filter w;
     stderr := stderr w |}.

Definition with_disk (v : list (string * file)) (w : office) : office :=
  {| listening := listening w; running := running w; documents := documents w;
     fresh := fresh w; disk := v; pdf_filter := pdf_filter w;
     stderr := stderr w |}.

Definition with_stderr (v : list string) (w : office) : office :=
  {| listening := listening w; running := running w; documents := documents w;
     fresh := fresh w; disk := disk w; pdf_filter := pdf_filter w;
     stderr := v |}.

(** Association lists keyed by [nat], by [string] and by cell position. *)
Fixpoint lookup_nat {A} (k : nat) (l : list (nat * A)) : option A :=
  match l with
  | [] => None
  | (k', a) :: rest => if Nat.eqb k k' then Some a else lookup_nat k rest
  end.

Fixpoint store_nat {A} (k : nat) (a : A) (l : list (nat * A)) : list (nat * A) :=
  match l with
  | [] => [(k, a)]
  | (k', a') :: rest =>
      if Nat.eqb k k' then (k, a) :: rest else (k', a') :: store_nat k a rest
  end.

Definition erase_nat {A} (k : nat) (l : list (nat * A)) : list (nat * A) :=
  filter (fun ka => negb (Nat.eqb k (fst ka))) l.

Fixpoint lookup_path {A} (k : string) (l : list (string * A)) : option A :=
  match l with
  | [] => None
  | (k', a) :: rest => if String.eqb k k' then Some a else lookup_path k rest
  end.

Definition store_path {A} (k : string) (a : A) (l : list (string * A)) : list (string * A) :=
  (k, a) :: filter (fun ka => negb (String.eqb k (fst ka))) l.

Definition same_cell (p q : Z * Z) : bool :=
  (fst p =? fst q)%Z && (snd p =? snd q)%Z.

Fixpoint lookup_cell (p : Z * Z) (l : list ((Z * Z) * content)) : content :=
  match l with
  | [] => Empty
  | (q, c) :: rest => if same_cell p q then c else lookup_cell p rest
  end.

Definition store_cell (p : Z * Z) (c : content) (l : list ((Z * Z) * content)) :=
  (p, c) :: filter (fun qc => negb (same_cell p (fst qc))) l.

Definition failed {A} (cls : exn_class) (msg : string) (w : office) : outcome A * office :=
  (Raised (Exn cls msg), w).

(** *** The Python runtime of the simulation *)

(** [float(z)]: the nearest float, ties to even; [OverflowError] beyond the
    largest float. *)
Definition float_of_int (z : Z) : outcome float :=
  let a := Z.abs z in
  let shift := Z.max 0 (Z.log2 a + 1 - 53) in
  let q := Z.shiftr a shift in
  let rest := a - Z.shiftl q shift in
  let half := Z.shiftl 1 (shift - 1) in
  let q' :=
    if (shift =? 0)%Z then q
    else if (rest >? half)%Z || ((rest =? half)%Z && Z.odd q) then q + 1
    else q in
  let f := Z.ldexp (PrimFloat.of_uint63 (Uint63.of_Z q')) shift in
  if PrimFloat.is_infinity f then
    Raised (Exn OverflowError "int too large to convert to float")
  else Returned (if (z <? 0)%Z then PrimFloat.opp f else f).

Fixpoint zeros (n : nat) : string :=
  match n with
  | O => ""
  | S n' => "0" ++ zeros n'
  end.

Fixpoint drop_zeros (l : list ascii) : list ascii :=
  match l with
  | "0"%char :: rest => drop_zeros rest
  | _ => l
  end.

(** The exact decimal expansion of [m * 2^e]; it is Python's [repr] where
    the shortest decimal that reads back as the float is that expansion and
    is written without an exponent. *)
Definition decimal (m : positive) (e : Z) : string :=
  if (0 <=? e)%Z then str_of_int (Z.pos m * 2 ^ e) ++ ".0"
  else
    let k := Z.to_nat (- e) in
    let n := Z.pos m * 5 ^ Z.of_nat k in
    let whole := n / 10 ^ Z.of_nat k in
    let part := str_of_int (n mod 10 ^ Z.of_nat k) in
    let digits := zeros (k - String.length part) ++ part in
    let kept := rev (drop_zeros (rev (list_ascii_of_string digits))) in
    str_of_int whole ++ "."
    ++ match kept with
       | [] => "0"
       | _ => string_of_list_ascii kept
       end.

Definition repr_float (f : float) : string :=
  match Prim2SF f with
  | S754_zero false => "0.0"
  | S754_zero true => "-0.0"
  | S754_infinity false => "inf"
  | S754_infinity true => "-inf"
  | S754_nan => "nan"
  | S754_finite false m e => decimal m e
  | S754_finite true m e => "-" ++ decimal m e
  end.

(** [repr] of a string that holds no quote, backslash or control
    character. *)
Definition repr_str (s : string) : string := "'" ++ s ++ "'".

Definition hex_digit (a : ascii) : option Z :=
  let n := Z.of_N (N_of_ascii a) in
  if (48 <=? n)%Z && (n <=? 57)%Z then Some (n - 48)
  else if (97 <=? n)%Z && (n <=? 102)%Z then Some (n - 87)
  else if (65 <=? n)%Z && (n <=? 70)%Z then Some (n - 55)
  else None.

Fixpoint hex (acc : Z) (s : string) : option Z :=
  match s with
  | EmptyString => Some acc
  | String a s' =>
      match hex_digit a with
      | Some d => hex (16 * acc + d) s'
      | None => None
      end
  end.

(** [int(s, 16)] for plain hexadecimal digits. *)
Definition int_base16 (s : string) : outcome Z :=
  match s, hex 0 s with
  | String _ _, Some z => Returned z
  | _, _ => Raised (Exn ValueError
              ("invalid literal for int() with base 16: " ++ repr_str s))
  end.

(** *** The operating system of the simulation: POSIX paths, the current
    directory is [/]. *)

Definition uuid4 (w : office) : string * office :=
  ("episode-" ++ str_of_int (Z.of_nat (fresh w)), with_fresh (S (fresh w)) w).

Definition sleep (seconds : float) (w : office) : office := w.

Definition print_exc (e : exn) (w : office) : office :=
  with_stderr (List.app (stderr w) ["Traceback (most recent call last): " ++ exn_str e]) w.

Definition not_a_path {A} (v : pyval) (w : office) : outcome A * office :=
  failed TypeError
    ("expected str, bytes or os.PathLike object, not " ++ type_name v) w.

Definition on_disk (p : string) (w : office) : bool :=
  match lookup_path p (disk w) with
  | Some _ => true
  | None => false
  end.

Definition path_exists (v : pyval) (w : office) : outcome bool * office :=
  match v with
  | PStr p => (Returned (on_disk p w), w)
  | _ => not_a_path v w
  end.

Definition abspath (v : pyval) (w : office) : outcome string * office :=
  match v with
  | PStr p =>
      match drop_prefix "/" p with
      | Some _ => (Returned p, w)
      | None => (Returned ("/" ++ p), w)
      end
  | _ => not_a_path v w
  end.

Fixpoint drop_until_slash (l : list ascii) : list ascii :=
  match l with
  | [] => []
  | a :: rest => if Ascii.eqb a "/" then l else drop_until_slash rest
  end.

Fixpoint drop_slashes (l : list ascii) : list ascii :=
  match l with
  | [] => []
  | a :: rest => if Ascii.eqb a "/" then drop_slashes rest else l
  end.

(** [posixpath.dirname]: up to the last slash, without the trailing slashes
    unless there is nothing else. *)
Definition dirname (v : pyval) (w : office) : outcome string * office :=
  match v with
  | PStr p =>
      let head := drop_until_slash (rev (list_ascii_of_string p)) in
      let head' := match drop_slashes head with
                   | [] => head
                   | trimmed => trimmed
                   end in
      (Returned (string_of_list_ascii (rev head')), w)
  | _ => not_a_path v w
  end.

Definition makedirs (dir : string) (w : office) : outcome unit * office :=
  if String.eqb dir "" then
    failed OSError "[Errno 2] No such file or directory: ''" w
  else if on_disk dir w then (Returned tt, w)
  else (Returned tt, with_disk (store_path dir Other (disk w)) w).

Definition access_W_OK (dir : string) (w : office) : outcome bool * office :=
  (Returned (on_disk dir w), w).

Definition mkdtemp (prefix : string) (w : office) : outcome string * office :=
  let dir := "/tmp/" ++ prefix ++ str_of_int (Z.of_nat (fresh w)) in
  (Returned dir, with_fresh (S (fresh w)) (with_disk (store_path dir Other (disk w)) w)).

Definition rmtree (dir : string) (w : office) : outcome unit * office :=
  if on_disk dir w then
    (Returned tt,
     with_disk (filter (fun ka => negb (String.eqb dir (fst ka))) (disk w)) w)
  else
    failed OSError ("[Errno 2] No such file or directory: " ++ repr_str dir) w.

Definition systemPathToFileUrl (p : string) (w : office) : outcome string * office :=
  (Returned ("file://" ++ p), w).

(** *** The office *)

Definition disposed {A} (w : office) : outcome A * office :=
  failed UnoException "com.sun.star.lang.DisposedException" w.

(** A connection attempt consumes one answer of [listening]; when none is
    left the connection is refused. *)
Definition resolve (_ : unit) (url : string) (w : office) : outcome unit * office :=
  match listening w with
  | true :: rest =>
      if running w then (Returned tt, with_listening rest w)
      else failed NoConnectException "Connector : couldn't connect to socket"
                  (with_listening rest w)
  | false :: rest =>
      failed NoConnectException "Connector : couldn't connect to socket"
             (with_listening rest w)
  | [] => failed NoConnectException "Connector : couldn't connect to socket" w
  end.

Definition createDesktop (_ : unit) (w : office) : outcome (option unit) * office :=
  if running w then (Returned (Some tt), w) else disposed w.

Definition blank : list tab :=
  [ {| tab_id := 0; tab_name := "Sheet1"; tab_cells := [] |} ].

Definition open_document (tabs : list tab) (w : office) : outcome (option nat) * office :=
  (Returned (Some (fresh w)),
   with_fresh (S (fresh w)) (with_documents (store_nat (fresh w) tabs (documents w)) w)).

Definition loadComponentFromURL (_ : unit) (url : string) (w : office)
    : outcome (option nat) * office :=
  if negb (running w) then disposed w
  else if String.eqb url "private:factory/scalc" then open_document blank w
  else
    match drop_prefix "file://" url with
    | Some p =>
        match lookup_path p (disk w) with
        | Some (Spreadsheet tabs) => open_document tabs w
        | _ => (Returned None, w)
        end
    | None => (Returned None, w)
    end.

Definition terminate (_ : unit) (w : office) : outcome unit * office :=
  if running w then (Returned tt, with_running false (with_documents [] w))
  else disposed w.

Definition close_document (doc : nat) (w : office) : outcome unit * office :=
  match lookup_nat doc (documents w) with
  | Some _ => (Returned tt, with_documents (erase_nat doc (documents w)) w)
  | None => disposed w
  end.

Definition storeAsURL (doc : nat) (url : string) (w : office) : outcome unit * office :=
  match lookup_nat doc (documents w), drop_prefix "file://" url with
  | Some tabs, Some p =>
      (Returned tt, with_disk (store_path p (Spreadsheet tabs) (disk w)) w)
  | Some _, None => failed UnoException "com.sun.star.task.ErrorCodeIOException" w
  | None, _ => disposed w
  end.

(** The PDF filter writes the file when [pdf_filter] holds, and returns
    without a file otherwise.  Arguments that are not property values are
    refused. *)
Definition storeToURL (doc : nat) (url : string) (args : store_args) (w : office)
    : outcome unit * office :=
  match lookup_nat doc (documents w), drop_prefix "file://" url, args with
  | Some _, Some p, PropertyValues _ =>
      if pdf_filter w then (Returned tt, with_disk (store_path p Other (disk w)) w)
      else (Returned tt, w)
  | Some _, Some _, Tuples _ =>
      failed UnoException "com.sun.star.lang.IllegalArgumentException" w
  | Some _, None, _ => failed UnoException "com.sun.star.task.ErrorCodeIOException" w
  | None, _, _ => disposed w
  end.

Definition getSheets (doc : nat) (w : office) : outcome nat * office :=
  match lookup_nat doc (documents w) with
  | Some _ => (Returned doc, w)
  | None => disposed w
  end.

Definition tabs_of (doc : nat) (w : office) : list tab :=
  default [] (lookup_nat doc (documents w)).

Definition find_tab (name : string) (tabs : list tab) : option tab :=
  find (fun t => String.eqb name (tab_name t)) tabs.

Definition find_id (id : nat) (tabs : list tab) : option tab :=
  find (fun t => Nat.eqb id (tab_id t)) tabs.

Definition getByIndex (doc : nat) (i : Z) (w : office) : outcome (nat * nat) * office :=
  match lookup_nat doc (documents w) with
  | Some tabs =>
      if (i <? 0)%Z then
        failed UnoException "com.sun.star.lang.IndexOutOfBoundsException" w
      else
        match nth_error tabs (Z.to_nat i) with
        | Some t => (Returned (doc, tab_id t), w)
        | None => failed UnoException "com.sun.star.lang.IndexOutOfBoundsException" w
        end
  | None => disposed w
  end.

Definition getByName (doc : nat) (name : pyval) (w : office)
    : outcome (nat * nat) * office :=
  match lookup_nat doc (documents w), name with
  | Some tabs, PStr n =>
      match find_tab n tabs with
      | Some t => (Returned (doc, tab_id t), w)
      | None => failed UnoException "com.sun.star.container.NoSuchElementException" w
      end
  | Some _, _ => failed UnoException "com.sun.star.lang.IllegalArgumentException" w
  | None, _ => disposed w
  end.

Definition getCount (doc : nat) (w : office) : outcome Z * office :=
  match lookup_nat doc (documents w) with
  | Some tabs => (Returned (Z.of_nat (List.length tabs)), w)
  | None => disposed w
  end.

Definition next_tab_id (tabs : list tab) : nat :=
  S (fold_right Nat.max 0%nat (map tab_id tabs)).

(** A new sheet needs a name that is not empty and not taken. *)
Definition insertNewByName (doc : nat) (name : pyval) (position : Z) (w : office)
    : outcome unit * office :=
  match lookup_nat doc (documents w), name with
  | Some tabs, PStr n =>
      match find_tab n tabs with
      | Some _ => failed UnoException "com.sun.star.uno.RuntimeException" w
      | None =>
          if String.eqb n "" then
            failed UnoException "com.sun.star.lang.IllegalArgumentException" w
          else
            let t := {| tab_id := next_tab_id tabs; tab_name := n; tab_cells := [] |} in
            let at_ := Z.to_nat position in
            (Returned tt,
             with_documents
               (store_nat doc (List.app (firstn at_ tabs) (t :: skipn at_ tabs))
                  (documents w)) w)
      end
  | Some _, _ => failed UnoException "com.sun.star.lang.IllegalArgumentException" w
  | None, _ => disposed w
  end.

Definition remove (doc : nat) (s : nat * nat) (w : office) : outcome unit * office :=
  match lookup_nat doc (documents w) with
  | Some tabs =>
      match find_id (snd s) tabs with
      | Some _ =>
          (Returned tt,
           with_documents
             (store_nat doc (filter (fun t => negb (Nat.eqb (snd s) (tab_id t))) tabs)
                (documents w)) w)
      | None => failed UnoException "com.sun.star.container.NoSuchElementException" w
      end
  | None => disposed w
  end.

Definition getName (s : nat * nat) (w : office) : outcome string * office :=
  match find_id (snd s) (tabs_of (fst s) w) with
  | Some t => (Returned (tab_name t), w)
  | None => disposed w
  end.

Definition update_tab (s : nat * nat) (f : tab -> tab) (w : office) : office :=
  with_documents
    (store_nat (fst s)
       (map (fun t => if Nat.eqb (snd s) (tab_id t) then f t else t) (tabs_of (fst s) w))
       (documents w)) w.

Definition setName (s : nat * nat) (name : pyval) (w : office) : outcome unit * office :=
  match find_id (snd s) (tabs_of (fst s) w), name with
  | Some t, PStr n =>
      if String.eqb n "" then
        failed UnoException "com.sun.star.uno.RuntimeException" w
      else
        match find_tab n (tabs_of (fst s) w) with
        | Some t' =>
            if Nat.eqb (tab_id t') (tab_id t) then (Returned tt, w)
            else failed UnoException "com.sun.star.uno.RuntimeException" w
        | None =>
            (Returned tt,
             update_tab s (fun t => {| tab_id := tab_id t; tab_name := n;
                                       tab_cells := tab_cells t |}) w)
        end
  | Some _, _ => failed UnoException "com.sun.star.lang.IllegalArgumentException" w
  | None, _ => disposed w
  end.

(** *** Cells: a reference is a column in letters and a row from 1, or two
    of them around a colon. *)

Definition area : Type := (nat * nat) * ((Z * Z) * (Z * Z)).

Fixpoint letters (acc : Z) (l : list ascii) : Z * list ascii :=
  match l with
  | a :: rest =>
      let n := Z.of_N (N_of_ascii a) in
      if (65 <=? n)%Z && (n <=? 90)%Z then letters (26 * acc + (n - 64)) rest
      else (acc, l)
  | [] => (acc, [])
  end.

Fixpoint digits (acc : Z) (l : list ascii) : Z * list ascii :=
  match l with
  | a :: rest =>
      let n := Z.of_N (N_of_ascii a) in
      if (48 <=? n)%Z && (n <=? 57)%Z then digits (10 * acc + (n - 48)) rest
      else (acc, l)
  | [] => (acc, [])
  end.

Definition cell_ref (l : list ascii) : option ((Z * Z) * list ascii) :=
  let (column, l') := letters 0 l in
  let (row, l'') := digits 0 l' in
  if (0 <? column)%Z && (0 <? row)%Z then Some ((column - 1, row - 1), l'')
  else None.

Definition parse_range (s : string) : option ((Z * Z) * (Z * Z)) :=
  match cell_ref (list_ascii_of_string s) with
  | Some (p, []) => Some (p, p)
  | Some (p, a :: rest) =>
      if Ascii.eqb a ":" then
        match cell_ref rest with
        | Some (q, []) => Some (p, q)
        | _ => None
        end
      else None
  | None => None
  end.

Definition getCellRangeByName (s : nat * nat) (ref : pyval) (w : office)
    : outcome area * office :=
  match find_id (snd s) (tabs_of (fst s) w), ref with
  | Some _, PStr r =>
      match parse_range r with
      | Some corners => (Returned (s, corners), w)
      | None => failed UnoException "com.sun.star.uno.RuntimeException" w
      end
  | Some _, _ => failed UnoException "com.sun.star.lang.IllegalArgumentException" w
  | None, _ => disposed w
  end.

Definition getCellByPosition (s : nat * nat) (column row : Z) (w : office)
    : outcome area * office :=
  match find_id (snd s) (tabs_of (fst s) w) with
  | Some _ =>
      if (0 <=? column)%Z && (0 <=? row)%Z then
        (Returned (s, ((column, row), (column, row))), w)
      else failed UnoException "com.sun.star.lang.IndexOutOfBoundsException" w
  | None => disposed w
  end.

Definition on_area {A} (c : area) (w : office) (k : tab -> outcome A * office)
    : outcome A * office :=
  match find_id (snd (fst c)) (tabs_of (fst (fst c)) w) with
  | Some t => k t
  | None => disposed w
  end.

Definition StartColumn (c : area) (w : office) : outcome Z * office :=
  on_area c w (fun _ => (Returned (fst (fst (snd c))), w)).

Definition StartRow (c : area) (w : office) : outcome Z * office :=
  on_area c w (fun _ => (Returned (snd (fst (snd c))), w)).

Definition put (c : area) (x : content) (w : office) : outcome unit * office :=
  on_area c w (fun _ =>
    (Returned tt,
     update_tab (fst c)
       (fun t => {| tab_id := tab_id t; tab_name := tab_name t;
                    tab_cells := store_cell (fst (snd c)) x (tab_cells t) |}) w)).

Definition held (c : area) (t : tab) : content :=
  lookup_cell (fst (snd c)) (tab_cells t).

(** What a cell shows for a number: its decimal, without a zero fraction. *)
Definition display (f : float) : string :=
  let r := repr_float f in
  match drop_prefix "0." (rev_string r) with
  | Some whole => rev_string whole
  | None => r
  end.

Definition setValue (c : area) (f : float) (w : office) : outcome unit * office :=
  put c (Number f) w.

Definition setString (c : area) (s : string) (w : office) : outcome unit * office :=
  put c (Text s) w.

Definition getString (c : area) (w : office) : outcome string * office :=
  on_area c w (fun t =>
    (Returned match held c t with
              | Empty => ""
              | Number f => display f
              | Text s => s
              | Formula _ => ""
              end, w)).

Definition getValue (c : area) (w : office) : outcome float * office :=
  on_area c w (fun t =>
    (Returned match held c t with
              | Number f => f
              | _ => 0%float
              end, w)).

Definition setFormula (c : area) (formula : pyval) (w : office) : outcome unit * office :=
  match formula with
  | PStr f =>
      match drop_prefix "=" f with
      | Some _ => put c (Formula f) w
      | None => put c (Text f) w
      end
  | _ => failed UnoException "com.sun.star.lang.IllegalArgumentException" w
  end.

Definition getFormula (c : area) (w : office) : outcome string * office :=
  on_area c w (fun t =>
    (Returned match held c t with
              | Empty => ""
              | Number f => display f
              | Text s => s
              | Formula f => f
              end, w)).

Definition span (first last : Z) : list Z :=
  map (fun i => first + Z.of_nat i) (seq 0 (Z.to_nat (last - first + 1))).

Definition getDataArray (c : area) (w : office) : outcome pyval * office :=
  on_area c w (fun t =>
    let corners := snd c in
    (Returned
       (PList (map (fun row =>
          PList (map (fun column =>
            match lookup_cell (column, row) (tab_cells t) with
            | Number f => PFloat f
            | Text s => PStr s
            | _ => PStr ""
            end) (span (fst (fst corners)) (fst (snd corners)))))
          (span (snd (fst corners)) (snd (snd corners))))), w)).

(** Character properties take numbers; they are not kept. *)
Definition setPropertyValue (c : area) (name : string) (v : pyval) (w : office)
    : outcome unit * office :=
  on_area c w (fun _ =>
    if is_int_or_float v then (Returned tt, w)
    else failed UnoException "com.sun.star.lang.IllegalArgumentException" w).

#[export] Instance host : Host :=
  Build_Host office unit unit unit unit nat nat (nat * nat) area
    float_of_int repr_float repr_str int_base16
    uuid4 sleep print_exc path_exists abspath dirname makedirs access_W_OK
    mkdtemp rmtree systemPathToFileUrl
    (fun w => (Returned tt, w)) (fun _ w => (Returned tt, w))
    resolve createDesktop loadComponentFromURL terminate
    close_document storeAsURL storeToURL getSheets
    getByIndex getByName getCount insertNewByName remove
    getName setName getCellRangeByName getCellByPosition
    StartColumn StartRow setValue setString getString getValue
    setFormula getFormula getDataArray setPropertyValue.

(** The same host on a disk whose directories refuse writes. *)
Definition read_only : Host :=
  Build_Host office unit unit unit unit nat nat (nat * nat) area
    float_of_int repr_float repr_str int_base16
    uuid4 sleep print_exc path_exists abspath dirname makedirs
    (fun _ w => (Returned false, w))
    mkdtemp rmtree systemPathToFileUrl
    (fun w => (Returned tt, w)) (fun _ w => (Returned tt, w))
    resolve createDesktop loadComponentFromURL terminate
    close_document storeAsURL storeToURL getSheets
    getByIndex getByName getCount insertNewByName remove
    getName setName getCellRangeByName getCellByPosition
    StartColumn StartRow setValue setString getString getValue
    setFormula getFormula getDataArray setPropertyValue.

(** An office that accepts the first connection, with an empty disk. *)
Definition office0 : office :=
  {| listening := [true]; running := true; documents := []; fresh := 0;
     disk := [("/tmp", Other)]; pdf_filter := true; stderr := [] |}.

End Sim.

(** ** Scenarios on the simulated host *)

(** What [m] gives from [st], and the state it leaves. *)
Definition answer `{Host} {A} (m : M A) (st : proc) : outcome A := fst (m st).

Definition after `{Host} {A} (m : M A) (st : proc) : proc := snd (m st).

(** The observation of an outcome; a raise has none. *)
Definition observed (r : outcome LibreOfficeObservation) : LibreOfficeObservation :=
  match r with
  | Returned obs => obs
  | Raised e => observation (exn_str e) false
  end.

(** [LibreOfficeAction(command=c, parameters=params)]. *)
Definition action (c : string) (params : gmap string pyval) : LibreOfficeAction :=
  {| command := c; parameters := params |}.

Module Scenario.

(** [LibreOfficeEnvironment(goal_excel=goal)] in front of an office that
    accepts one connection. *)
Definition created (goal : option string) : proc :=
  __init__ (H := Sim.host) None goal Sim.office0.

(** After a first [reset()]: connected, one blank document with [Sheet1]. *)
Definition ready : proc := after reset (created None).

(** After a second [reset()], which the office refuses. *)
Definition refused : proc := after reset ready.

(** [Sheet1] renamed to [Sheet2]. *)
Definition renamed : proc :=
  after (step (action "rename_sheet"
                 {[ "old_name" := PStr "Sheet1"; "new_name" := PStr "Sheet2" ]})) ready.

(** A second sheet, [Data], added. *)
Definition two_sheets : proc :=
  after (step (action "add_sheet" {[ "name" := PStr "Data" ]})) ready.

(** [A1] holds the text [hello]. *)
Definition with_text : proc :=
  after (step (action "set_cell" {[ "cell" := PStr "A1"; "value" := PStr "hello" ]})) ready.

(** An office whose PDF filter returns without writing the file. *)
Definition office_without_pdf : Sim.office :=
  {| Sim.listening := [true]; Sim.running := true; Sim.documents := [];
     Sim.fresh := 0; Sim.disk := [("/tmp", Sim.Other)]; Sim.pdf_filter := false;
     Sim.stderr := [] |}.

Definition ready_without_pdf : proc :=
  after reset (__init__ (H := Sim.host) None None office_without_pdf).

(** An environment with a goal path, after [reset()] and one cell written. *)
Definition goal_path : string := "/tmp/goal.xlsx".

Definition ready_with_goal : proc :=
  after (step (action "set_cell" {[ "cell" := PStr "A1"; "value" := PInt 7 ]}))
    (after reset (created (Some goal_path))).

(** An environment in front of an office that accepts no connection. *)
Definition unreachable : proc :=
  __init__ (H := Sim.host) None None (Sim.with_listening [] Sim.office0).

(** The office has died under a ready environment: its documents are gone. *)
Definition crashed : proc :=
  Proc (self ready) (stdout ready)
    (Sim.with_running false (Sim.with_documents [] (outside ready))).

(** A ready environment on the disk that refuses writes. *)
Definition ready_read_only : proc (H := Sim.read_only) :=
  after (H := Sim.read_only) reset (__init__ (H := Sim.read_only) None None Sim.office0).

End Scenario.

(** * Properties *)

Example strip_spaces :
  strip (bytes [32; 9; 194; 160]%N ++ "a b" ++ bytes [226; 128; 137; 10]%N) = "a b".
Proof. reflexivity. Qed.

Example strip_blank : strip (bytes [32; 227; 128; 128; 13]%N) = "".
Proof. reflexivity. Qed.

Example chars_utf8 :
  chars ("a" ++ bytes [195; 169]%N ++ "b") = ["a"; bytes [195; 169]%N; "b"].
Proof. reflexivity. Qed.

(** ** Strings *)

Lemma drop_prefix_app (p s : string) : drop_prefix p (p ++ s) = Some s.
Proof.
  induction p as [|a p IH]; simpl; [reflexivity|].
  rewrite Ascii.eqb_refl. exact IH.
Qed.

Lemma contains_here (needle s : string) : contains needle (needle ++ s) = true.
Proof.
  destruct (needle ++ s) eqn:E; simpl; rewrite <- E, drop_prefix_app; reflexivity.
Qed.

Lemma contains_app (needle front back : string) :
  contains needle (front ++ needle ++ back) = true.
Proof.
  induction front as [|a front IH].
  - exact (contains_here needle back).
  - simpl. destruct (drop_prefix needle (String a (front ++ needle ++ back)));
      [reflexivity | exact IH].
Qed.



Section Properties.
Context {H : Host}.

(** ** Running the monad *)

Lemma run_bind {A B} (m : M A) (f : A -> M B) (st : proc) :
  (m ≫= f) st =
  match m st with
  | (Returned a, st') => f a st'
  | (Raised e, st') => (Raised e, st')
  end.
Proof. reflexivity. Qed.

Lemma run_ret {A} (a : A) (st : proc) : (mret a : M A) st = (Returned a, st).
Proof. reflexivity. Qed.

Lemma run_bind_returned {A B} (m : M A) (f : A -> M B) st a st' :
  m st = (Returned a, st') -> (m ≫= f) st = f a st'.
Proof. intros E. rewrite run_bind, E. reflexivity. Qed.

Lemma run_bind_raised {A B} (m : M A) (f : A -> M B) st e st' :
  m st = (Raised e, st') -> (m ≫= f) st = (Raised e, st').
Proof. intros E. rewrite run_bind, E. reflexivity. Qed.

Lemma run_try {A} (body : M A) (handler : exn -> M A) (st : proc) :
  try_except body handler st =
  match body st with
  | (Returned a, st') => (Returned a, st')
  | (Raised e, st') => handler e st'
  end.
Proof. reflexivity. Qed.

Lemma run_call {A} (op : world -> outcome A * world) s out w r w' :
  op w = (r, w') -> call op (Proc s out w) = (r, Proc s out w').
Proof. intros E. unfold call. cbn. rewrite E. reflexivity. Qed.

(** One step of symbolic execution: open a bind or a [try], then compute the
    primitive it starts with and the attributes it reads. *)
Ltac run_binds :=
  repeat first
    [ rewrite run_bind
    | rewrite run_ret
    | progress cbn [mret M_ret assign attr print call_total effect eval raise
                    reraise deref self stdout outside
                    set_state set_reset_count set_libreoffice_context
                    set_document set_current_sheet set_file_path set_temp_dir
                    set_initialized
                    _state _reset_count _libreoffice_context _document
                    _current_sheet _file_path _temp_dir _initialized
                    _base_excel _goal_excel episode_id step_count negb] ].

Ltac run := repeat first [ progress run_binds | rewrite run_try ].

Lemma returns_ret {A} (a : A) : returns (mret a).
Proof. intros st. exists a, st. reflexivity. Qed.

Lemma returns_bind {A B} (m : M A) (f : A -> M B) :
  returns m -> (forall a, returns (f a)) -> returns (m ≫= f).
Proof.
  intros Hm Hf st. destruct (Hm st) as (a & st' & E).
  rewrite (run_bind_returned _ _ _ _ _ E). apply Hf.
Qed.

(** A [try] whose handler never raises never raises. *)
Lemma returns_try {A} (body : M A) (handler : exn -> M A) :
  (forall e, returns (handler e)) -> returns (try_except body handler).
Proof.
  intros Hh st. rewrite run_try.
  destruct (body st) as [[a|e] st']; [exists a, st'; reflexivity | apply Hh].
Qed.

Lemma returns_execute_command (action : LibreOfficeAction) :
  returns (_execute_command action).
Proof.
  unfold _execute_command. intros st. run.
  destruct (_initialized (self st)); run.
  - apply returns_try. intros e. apply returns_ret.
  - apply returns_ret.
Qed.

(** ** Dispatch *)

Lemma dispatch_unknown chain (c : string) (params : gmap string pyval) :
  existsb (String.eqb c) (map fst chain) = false ->
  dispatch chain c params =
  mret (observation ("Unknown command: " ++ c) false
        |> with_error_message ("Command '" ++ c ++ "' not supported")).
Proof.
  induction chain as [|[name handler] chain IH]; simpl; [reflexivity|].
  intros E. apply orb_false_elim in E as [E1 E2]. rewrite E1. auto.
Qed.

Lemma dispatch_handler chain (c : string) (params : gmap string pyval) :
  dispatch chain c params =
  match find (fun h => String.eqb c (fst h)) chain with
  | Some h => snd h params
  | None =>
      mret (observation ("Unknown command: " ++ c) false
            |> with_error_message ("Command '" ++ c ++ "' not supported"))
  end.
Proof.
  induction chain as [|[name handler] chain IH]; simpl; [reflexivity|].
  destruct (String.eqb c name); [reflexivity | exact IH].
Qed.

(** [step] on an initialized environment runs the handler of the command
    after counting the step, and when the handler returns, completes its
    observation. *)
Lemma step_runs_handler (action : LibreOfficeAction) (st st' : proc) h
    (obs : LibreOfficeObservation) :
  _initialized (self st) = true ->
  find (fun h => String.eqb (command action) (fst h)) handlers = Some h ->
  snd h (parameters action) (counted st) = (Returned obs, st') ->
  step action st =
  (Returned
     (obs
      |> with_metadata
           {[ "step" := PInt (step_count (_state (self st')));
              "command" := PStr (command action);
              "episode_id" := PStr (episode_id (_state (self st'))) ]}
      |> with_reward (if success obs then 1.0 else -0.1)
      |> with_done false),
   st').
Proof.
  intros Hinit Hfind Hrun.
  unfold step, _execute_command. run. rewrite Hinit. run.
  rewrite dispatch_handler, Hfind. fold (counted st). rewrite Hrun. run. reflexivity.
Qed.

(** [step] on an environment that is not initialized. *)
Lemma step_not_initialized (action : LibreOfficeAction) (st : proc) :
  _initialized (self st) = false ->
  exists obs,
    step action st = (Returned obs, counted st) /\
    success obs = false /\
    result obs = "LibreOffice not initialized" /\
    error_message obs = Some "LibreOffice connection failed".
Proof.
  intros E. eexists. split.
  - unfold step, _execute_command. run. rewrite E. run. reflexivity.
  - cbn. auto.
Qed.

(** [step] with a command that the chain does not dispatch, on an
    initialized environment. *)
Lemma step_unknown (action : LibreOfficeAction) (st : proc) :
  _initialized (self st) = true ->
  dispatched (command action) = false ->
  step action st =
  (Returned
     (observation ("Unknown command: " ++ command action) false
      |> with_error_message ("Command '" ++ command action ++ "' not supported")
      |> with_metadata
           {[ "step" := PInt (step_count (_state (self st)) + 1);
              "command" := PStr (command action);
              "episode_id" := PStr (episode_id (_state (self st))) ]}
      |> with_reward (-0.1)
      |> with_done false),
   counted st).
Proof.
  intros Hinit Hunknown.
  unfold step, _execute_command. run. rewrite Hinit. run.
  rewrite (dispatch_unknown _ _ _ Hunknown). run. reflexivity.
Qed.

(** C1.  On an initialized environment, [step] with a command that the chain
    does not dispatch returns an observation with [success = false] and the
    error message [Command '<command>' not supported], which contains the
    command, and counts exactly one more step. *)
Theorem step_unknown_command (action : LibreOfficeAction) (st : proc) :
  _initialized (self st) = true ->
  dispatched (command action) = false ->
  exists obs st',
    step action st = (Returned obs, st') /\
    success obs = false /\
    error_message obs = Some ("Command '" ++ command action ++ "' not supported") /\
    contains (command action) ("Command '" ++ command action ++ "' not supported") = true /\
    step_count (_state (self st')) = step_count (_state (self st)) + 1.
Proof.
  intros Hinit Hunknown. eexists _, _.
  split; [exact (step_unknown action st Hinit Hunknown)|].
  repeat split. apply (contains_app _ "Command '").
Qed.

(** The five commands that the action model documents and the chain does not
    dispatch. *)
Lemma documented_not_dispatched :
  forallb (fun c => negb (dispatched c))
    ["copy_range"; "paste_range"; "sort_range"; "filter_range"; "create_chart"] = true.
Proof. reflexivity. Qed.

(** C2.  [step] always returns; its observation carries the metadata
    [{step, command, episode_id}] of the current state, the reward [1.0] on
    success and [-0.1] on failure, and [done = False]. *)
Theorem step_shapes_observation (action : LibreOfficeAction) (st : proc) :
  exists obs st',
    step action st = (Returned obs, st') /\
    metadata obs =
      {[ "step" := PInt (step_count (_state (self st')));
         "command" := PStr (command action);
         "episode_id" := PStr (episode_id (_state (self st'))) ]} /\
    reward obs = Some (if success obs then 1.0 else -0.1)%float /\
    done obs = false.
Proof.
  destruct (returns_execute_command action (counted st)) as (obs & st' & E).
  unfold step. rewrite run_bind. cbn [assign]. fold (counted st).
  rewrite (run_bind_returned _ _ _ _ _ E). run.
  eexists _, st'. split; [reflexivity|]. cbn. auto.
Qed.

(** ** Frames and postconditions *)

Lemma maintains_ret {A} (I : Self -> Prop) (a : A) : maintains I (mret a).
Proof. intros st HI. exact HI. Qed.

Lemma maintains_raise {A} (I : Self -> Prop) cls msg : maintains I (raise (A:=A) cls msg).
Proof. intros st HI. exact HI. Qed.

Lemma maintains_reraise {A} (I : Self -> Prop) e : maintains I (reraise (A:=A) e).
Proof. intros st HI. exact HI. Qed.

Lemma maintains_attr {A} (I : Self -> Prop) (g : Self -> A) : maintains I (attr g).
Proof. intros st HI. exact HI. Qed.

Lemma maintains_print (I : Self -> Prop) line : maintains I (print line).
Proof. intros st HI. exact HI. Qed.

Lemma maintains_call {A} (I : Self -> Prop) (op : world -> outcome A * world) :
  maintains I (call op).
Proof. intros st HI. unfold call. destruct (op (outside st)). exact HI. Qed.

Lemma maintains_call_total {A} (I : Self -> Prop) (op : world -> A * world) :
  maintains I (call_total op).
Proof. intros st HI. unfold call_total. destruct (op (outside st)). exact HI. Qed.

Lemma maintains_effect (I : Self -> Prop) op : maintains I (effect op).
Proof. intros st HI. exact HI. Qed.

Lemma maintains_eval {A} (I : Self -> Prop) (r : outcome A) : maintains I (eval r).
Proof. intros st HI. exact HI. Qed.

Lemma maintains_deref {A} (I : Self -> Prop) (o : option A) name :
  maintains I (deref o name).
Proof. intros st HI. destruct o; exact HI. Qed.

Lemma maintains_assign (I : Self -> Prop) (g : Self -> Self) :
  (forall s, I s -> I (g s)) -> maintains I (assign g).
Proof. intros Hg st HI. apply Hg, HI. Qed.

Lemma maintains_bind {A B} (I : Self -> Prop) (m : M A) (k : A -> M B) :
  maintains I m -> (forall a, maintains I (k a)) -> maintains I (m ≫= k).
Proof.
  intros Hm Hk st HI. rewrite run_bind. specialize (Hm st HI).
  destruct (m st) as [[a|e] st1]; cbn in *; [apply Hk, Hm | exact Hm].
Qed.

Lemma maintains_try {A} (I : Self -> Prop) (body : M A) (handler : exn -> M A) :
  maintains I body -> (forall e, maintains I (handler e)) ->
  maintains I (try_except body handler).
Proof.
  intros Hb Hh st HI. rewrite run_try. specialize (Hb st HI).
  destruct (body st) as [[a|e] st1]; cbn in *; [exact Hb | apply Hh, Hb].
Qed.

(** An attribute that a method maintains at every value is left as it
    was. *)
Lemma maintains_value {A B} (f : Self -> B) (m : M A) (st : proc) :
  (forall v, maintains (fun s => f s = v) m) -> f (self (snd (m st))) = f (self st).
Proof. intros Hm. exact (Hm (f (self st)) st eq_refl). Qed.

Lemma post_ret {A} (P : A -> Prop) (a : A) : P a -> post P (mret a).
Proof. intros Ha st a' st' E. injection E as <- _. exact Ha. Qed.

Lemma post_raise {A} (P : A -> Prop) cls msg : post P (raise cls msg).
Proof. intros st a st' E. discriminate E. Qed.

Lemma post_bind {A B} (P : B -> Prop) (m : M A) (k : A -> M B) :
  (forall a, post P (k a)) -> post P (m ≫= k).
Proof.
  intros Hk st b st' E. rewrite run_bind in E.
  destruct (m st) as [[a|e] st1]; [exact (Hk a _ _ _ E) | discriminate E].
Qed.

Lemma post_try {A} (P : A -> Prop) (body : M A) (handler : exn -> M A) :
  post P body -> (forall e, post P (handler e)) -> post P (try_except body handler).
Proof.
  intros Hb Hh st a st' E. rewrite run_try in E.
  destruct (body st) as [[a1|e] st1] eqn:Eb.
  - injection E as <- _. exact (Hb _ _ _ Eb).
  - exact (Hh e _ _ _ E).
Qed.

(** The two proof searches walk the program: every primitive but [assign]
    leaves [self] alone, and an assignment is checked against the invariant;
    a postcondition is checked where the program returns. *)
Create HintDb frame.

Ltac frame :=
  repeat first
    [ solve [auto with frame nocore]
    | apply maintains_ret | apply maintains_raise | apply maintains_reraise
    | apply maintains_attr | apply maintains_print | apply maintains_call
    | apply maintains_call_total | apply maintains_effect | apply maintains_eval
    | apply maintains_deref
    | apply maintains_assign; intros ? ?; first [assumption | reflexivity]
    | apply maintains_bind; [|intro]
    | apply maintains_try; [|intro]
    | match goal with
      | |- maintains _ (if ?c then _ else _) => destruct c
      | |- maintains _ (match ?x with _ => _ end) => destruct x
      end ].

Ltac postcondition :=
  repeat first
    [ apply post_raise
    | apply post_bind; intro
    | apply post_try; [|intro]
    | match goal with
      | |- post _ (if ?c then _ else _) => destruct c
      | |- post _ (match ?x with _ => _ end) => destruct x
      end ].

Lemma maintains_names_at (I : Self -> Prop) shs indices :
  maintains I (names_at shs indices).
Proof. induction indices as [|i rest IH]; simpl; frame. Qed.

#[local] Hint Resolve maintains_names_at : frame.

Lemma maintains_all_sheet_names (I : Self -> Prop) shs :
  maintains I (all_sheet_names shs).
Proof. unfold all_sheet_names. frame. Qed.

#[local] Hint Resolve maintains_all_sheet_names : frame.

(** [_get_sheet] and [_add_sheet] assign no attribute: they maintain
    everything. *)
Lemma maintains_get_sheet (I : Self -> Prop) sheet_name :
  maintains I (_get_sheet sheet_name).
Proof. unfold _get_sheet. destruct sheet_name; frame. Qed.

#[local] Hint Resolve maintains_get_sheet : frame.

Lemma maintains_add_sheet (I : Self -> Prop) params : maintains I (_add_sheet params).
Proof. unfold _add_sheet. frame. Qed.

(** ** Address resolution *)

(** C7.  [_get_sheet]: without a name, the current sheet; with a name that
    the document's sheets resolve, that sheet; with a name that they do not
    resolve, the current sheet, and nothing is raised. *)
Theorem get_sheet_policy :
  (forall st,
     _get_sheet PNone st = (Returned (_current_sheet (self st)), st)) /\
  (forall st name doc shs w1 s w2,
     name <> PNone ->
     _document (self st) = Some doc ->
     getSheets doc (outside st) = (Returned shs, w1) ->
     getByName shs name w1 = (Returned s, w2) ->
     _get_sheet name st = (Returned (Some s), Proc (self st) (stdout st) w2)) /\
  (forall st name doc shs w1 e w2,
     name <> PNone ->
     _document (self st) = Some doc ->
     getSheets doc (outside st) = (Returned shs, w1) ->
     getByName shs name w1 = (Raised e, w2) ->
     _get_sheet name st =
       (Returned (_current_sheet (self st)), Proc (self st) (stdout st) w2)).
Proof.
  split; [reflexivity|]. split.
  - intros st name doc shs w1 s w2 Hname Hdoc Hsheets Hby.
    assert (E : _get_sheet name =
                (d ← attr _document; doc ← deref d "getSheets";
                 shs ← call (getSheets doc);
                 try_except (s ← call (getByName shs name); mret (Some s))
                   (fun _ => attr _current_sheet)))
      by (destruct name; try reflexivity; congruence).
    rewrite E. destruct st as [s0 out w]; cbn in *. run. rewrite Hdoc. run.
    rewrite (run_call _ _ _ _ _ _ Hsheets). run.
    rewrite (run_call _ _ _ _ _ _ Hby). run. reflexivity.
  - intros st name doc shs w1 e w2 Hname Hdoc Hsheets Hby.
    assert (E : _get_sheet name =
                (d ← attr _document; doc ← deref d "getSheets";
                 shs ← call (getSheets doc);
                 try_except (s ← call (getByName shs name); mret (Some s))
                   (fun _ => attr _current_sheet)))
      by (destruct name; try reflexivity; congruence).
    rewrite E. destruct st as [s0 out w]; cbn in *. run. rewrite Hdoc. run.
    rewrite (run_call _ _ _ _ _ _ Hsheets). run.
    rewrite (run_call _ _ _ _ _ _ Hby). run. reflexivity.
Qed.

(** ** Cells *)


(** C9.  [_set_cell] with a cell reference that resolves and no ["value"]
    key: the value is [None], which is not a number, so the write is
    [setString("None")], and the observation reports success. *)
Theorem set_cell_without_value (params : gmap string pyval) (st st1 : proc)
    (sheet0 : sheet) (cell_range : cells) (name : string) (w1 w2 w3 : world) :
  truthy (get params "cell") = true ->
  params !! "value" = None ->
  _get_sheet (get params "sheet") st = (Returned (Some sheet0), st1) ->
  getCellRangeByName sheet0 (get params "cell") (outside st1) = (Returned cell_range, w1) ->
  setString cell_range "None" w1 = (Returned tt, w2) ->
  getName sheet0 w2 = (Returned name, w3) ->
  write_value cell_range (get params "value") = call (setString cell_range "None") /\
  exists obs,
    _set_cell params st = (Returned obs, Proc (self st1) (stdout st1) w3) /\
    success obs = true.
Proof.
  intros Hcell Hvalue Hsheet Hrange Hwrite Hname.
  assert (Hnone : get params "value" = PNone) by (unfold get; rewrite Hvalue; reflexivity).
  split; [rewrite Hnone; reflexivity|].
  destruct st1 as [s1 out1 w0]; cbn in *.
  unfold _set_cell. rewrite Hcell, Hnone. run. rewrite Hsheet. run.
  rewrite (run_call _ _ _ _ _ _ Hrange). run.
  unfold write_value. cbn [is_int_or_float str repr].
  rewrite (run_call _ _ _ _ _ _ Hwrite). run.
  rewrite (run_call _ _ _ _ _ _ Hname). run.
  eexists. split; reflexivity.
Qed.

(** ** Sheets *)

Lemma add_sheet_reports_name (params : gmap string pyval) :
  post (fun obs => success obs = true ->
          exists count,
            current_sheet obs = get_or params "name" (PStr (default_sheet_name count)))
       (_add_sheet params).
Proof.
  unfold _add_sheet. postcondition; apply post_ret; cbn; intros; eauto; discriminate.
Qed.

(** C10.  A successful [_add_sheet] leaves [self._current_sheet] as it was,
    so that the next resolution without a sheet name gives the same sheet
    as before, while the observation's [current_sheet] is the name of the
    sheet just added. *)
Theorem add_sheet_keeps_current_sheet (params : gmap string pyval)
    (st st' : proc) (obs : LibreOfficeObservation) :
  _add_sheet params st = (Returned obs, st') ->
  success obs = true ->
  _current_sheet (self st') = _current_sheet (self st) /\
  _get_sheet PNone st' = (Returned (_current_sheet (self st)), st') /\
  exists count,
    current_sheet obs = get_or params "name" (PStr (default_sheet_name count)).
Proof.
  intros Hrun Hok.
  pose proof (maintains_value _current_sheet (_add_sheet params) st
                (fun v => maintains_add_sheet _ params)) as Hkeep.
  rewrite Hrun in Hkeep. cbn in Hkeep.
  split; [exact Hkeep|]. split.
  - change (_get_sheet PNone st') with (Returned (_current_sheet (self st')), st').
    rewrite Hkeep. reflexivity.
  - exact (add_sheet_reports_name params _ _ _ Hrun Hok).
Qed.



(** ** The episode state across a step *)

Lemma maintains_write_value (I : Self -> Prop) target value :
  maintains I (write_value target value).
Proof. unfold write_value. frame. Qed.

#[local] Hint Resolve maintains_write_value : frame.

Lemma maintains_for_enumerate {A} (I : Self -> Prop) (l : list A) body :
  (forall i x, maintains I (body i x)) -> forall i, maintains I (for_enumerate i l body).
Proof. intros Hbody. induction l as [|x l IH]; intros i; simpl; frame. Qed.

(** No handler assigns [self._state]. *)
Lemma maintains_state_handlers (P : State -> Prop) :
  Forall (fun h => forall params, maintains (fun s => P (_state s)) (snd h params))
    handlers.
Proof.
  unfold handlers.
  repeat (constructor; [intros params|]); [..|constructor]; cbn [snd].
  - unfold _create_sheet. frame.
  - unfold _open_file. frame.
  - unfold _save_file. frame.
  - unfold _set_cell. frame.
  - unfold _get_cell. frame.
  - unfold _set_range. frame.
    apply maintains_for_enumerate. intros i row. frame.
    apply maintains_for_enumerate. intros j value. frame.
  - unfold _get_range. frame.
  - unfold _set_formula. frame.
  - unfold _get_formula. frame.
  - unfold _add_sheet. frame.
  - unfold _delete_sheet. frame.
  - unfold _rename_sheet. frame.
  - unfold _format_cell. frame.
  - unfold _export_pdf. frame.
  - unfold _export_csv. frame.
Qed.

Lemma maintains_dispatch (I : Self -> Prop) chain c params :
  Forall (fun h => forall params, maintains I (snd h params)) chain ->
  maintains I (dispatch chain c params).
Proof.
  induction 1 as [|[name handler] chain Hh _ IH]; simpl; [frame|].
  destruct (String.eqb c name); [apply Hh | exact IH].
Qed.

Lemma maintains_state_execute_command (P : State -> Prop) action :
  maintains (fun s => P (_state s)) (_execute_command action).
Proof.
  unfold _execute_command. frame. apply maintains_dispatch, maintains_state_handlers.
Qed.

(** Every step, whatever it does, counts one more step in the same
    episode. *)
Lemma step_counts_one (action : LibreOfficeAction) (st : proc) :
  step_count (_state (self (after (step action) st)))
    = step_count (_state (self st)) + 1 /\
  episode_id (_state (self (after (step action) st))) = episode_id (_state (self st)).
Proof.
  pose proof (maintains_value _state (_execute_command action) (counted st)
                (fun v => maintains_state_execute_command (fun x => x = v) action))
    as Hkeep.
  destruct (returns_execute_command action (counted st)) as (obs & st' & E).
  rewrite E in Hkeep. cbn in Hkeep.
  unfold after, step. rewrite run_bind. cbn [assign]. fold (counted st).
  rewrite (run_bind_returned _ _ _ _ _ E). run. cbn [snd]. rewrite Hkeep. split; reflexivity.
Qed.

(** ** Error messages and failures *)

Ltac leaves := postcondition; try (apply post_ret; cbn; congruence).

(** Every handler that reports an error message reports a failure. *)
Lemma message_means_failure_handlers :
  Forall (fun h => forall params, post message_means_failure (snd h params)) handlers.
Proof.
  unfold handlers, message_means_failure.
  repeat (constructor; [intros params|]); [..|constructor]; cbn [snd].
  - unfold _create_sheet. leaves.
  - unfold _open_file. leaves.
  - unfold _save_file. leaves.
  - unfold _set_cell. leaves.
  - unfold _get_cell. leaves.
  - unfold _set_range. leaves.
  - unfold _get_range. leaves.
  - unfold _set_formula. leaves.
  - unfold _get_formula. leaves.
  - unfold _add_sheet. leaves.
  - unfold _delete_sheet. leaves.
  - unfold _rename_sheet. leaves.
  - unfold _format_cell. leaves.
  - unfold _export_pdf. leaves.
  - unfold _export_csv. leaves.
Qed.

(** Every handler but [_export_pdf] gives a message with every failure. *)
Lemma failure_has_message_handlers :
  Forall (fun h => fst h <> "export_pdf" ->
                   forall params, post failure_has_message (snd h params)) handlers.
Proof.
  unfold handlers, failure_has_message.
  repeat (constructor; [intros Hname params|]); [..|constructor]; cbn [fst snd] in *.
  - unfold _create_sheet. leaves.
  - unfold _open_file. leaves.
  - unfold _save_file. leaves.
  - unfold _set_cell. leaves.
  - unfold _get_cell. leaves.
  - unfold _set_range. leaves.
  - unfold _get_range. leaves.
  - unfold _set_formula. leaves.
  - unfold _get_formula. leaves.
  - unfold _add_sheet. leaves.
  - unfold _delete_sheet. leaves.
  - unfold _rename_sheet. leaves.
  - unfold _format_cell. leaves.
  - congruence.
  - unfold _export_csv. leaves.
Qed.

Lemma post_dispatch (P : LibreOfficeObservation -> Prop) chain c params :
  Forall (fun h => fst h = c -> forall params, post P (snd h params)) chain ->
  (forall msg, P (observation ("Unknown command: " ++ c) false |> with_error_message msg)) ->
  post P (dispatch chain c params).
Proof.
  intros Hchain Hunknown.
  induction Hchain as [|[name handler] chain Hh _ IH]; simpl.
  - apply post_ret, Hunknown.
  - destruct (String.eqb_spec c name) as [->|Hne]; [apply Hh; reflexivity | exact IH].
Qed.

Lemma post_execute_command (P : LibreOfficeObservation -> Prop) action :
  Forall (fun h => fst h = command action -> forall params, post P (snd h params))
    handlers ->
  (forall r msg, P (observation r false |> with_error_message msg)) ->
  post P (_execute_command action).
Proof.
  intros Hhandlers Hfailure. unfold _execute_command. postcondition.
  - apply post_ret, Hfailure.
  - apply post_dispatch; [exact Hhandlers | intros msg; apply Hfailure].
  - apply post_ret, Hfailure.
Qed.

(** What [step] adds to an observation changes neither [success] nor
    [error_message]. *)
Lemma post_step (P : LibreOfficeObservation -> Prop) action :
  (forall obs m r d, P obs -> P (obs |> with_metadata m |> with_reward r |> with_done d)) ->
  post P (_execute_command action) -> post P (step action).
Proof.
  intros Hshape Hexec. unfold step. apply post_bind. intros [].
  intros st obs st' E. rewrite run_bind in E.
  destruct (_execute_command action st) as [[obs0|e] st0] eqn:E0; [|discriminate E].
  run. cbn in E. injection E as <- _. apply Hshape. exact (Hexec _ _ _ E0).
Qed.

(** One direction of C4 holds of every step: an observation with an error
    message reports a failure. *)
Lemma step_message_means_failure (action : LibreOfficeAction) :
  post message_means_failure (step action).
Proof.
  apply post_step; [intros obs m r d Hobs; exact Hobs|].
  apply post_execute_command.
  - eapply Forall_impl; [exact message_means_failure_handlers|].
    intros h Hh _. exact Hh.
  - intros r msg _. reflexivity.
Qed.

(** The other direction holds of every step but [export_pdf]. *)
Lemma step_failure_has_message (action : LibreOfficeAction) :
  command action <> "export_pdf" ->
  post failure_has_message (step action).
Proof.
  intros Hcommand.
  apply post_step; [intros obs m r d Hobs; exact Hobs|].
  apply post_execute_command.
  - eapply Forall_impl; [exact failure_has_message_handlers|].
    intros h Hh Hname. apply Hh. congruence.
  - intros r msg _. discriminate.
Qed.

(** [reset] and [close], when they return, relate message and failure both
    ways. *)
Lemma reset_message_iff_failure :
  post (fun obs => message_means_failure obs /\ failure_has_message obs) reset.
Proof.
  unfold reset, message_means_failure, failure_has_message.
  postcondition; apply post_ret; cbn; split; congruence.
Qed.

Lemma close_message_iff_failure :
  post (fun obs => message_means_failure obs /\ failure_has_message obs) close.
Proof.
  unfold close, message_means_failure, failure_has_message.
  postcondition; apply post_ret; cbn; split; congruence.
Qed.

(** ** The initialized flag across a reset *)

Lemma maintains_initialized_open_file params :
  maintains (fun s => _initialized s = true) (_open_file params).
Proof. unfold _open_file. frame. Qed.

#[local] Hint Resolve maintains_initialized_open_file : frame.

Lemma maintains_initialized_connect resolver attempts :
  maintains (fun s => _initialized s = true) (connect resolver attempts).
Proof. induction attempts as [|attempt rest IH]; simpl; frame. Qed.

#[local] Hint Resolve maintains_initialized_connect : frame.

(** [reset] never clears [_initialized]: [_cleanup_libreoffice] and a
    refused [_initialize_libreoffice] leave it as it was. *)
Lemma reset_keeps_initialized :
  maintains (fun s => _initialized s = true) reset.
Proof.
  unfold reset, _cleanup_libreoffice, _initialize_libreoffice. frame.
Qed.

(** So, on every host, a step that follows a reset of an initialized
    environment is dispatched, also when that reset failed. *)
Lemma step_after_reset_dispatched (action : LibreOfficeAction) (st : proc) :
  _initialized (self st) = true ->
  dispatched (command action) = false ->
  exists obs st',
    step action (after reset st) = (Returned obs, st') /\
    error_message obs = Some ("Command '" ++ command action ++ "' not supported").
Proof.
  intros Hinit Hunknown. eexists _, _. split.
  - exact (step_unknown action (after reset st)
             (reset_keeps_initialized st Hinit) Hunknown).
  - reflexivity.
Qed.

(** ** Saving at close *)

(** Without a document handle [_save_file] fails, whatever the host does:
    [self._document.storeAsURL] raises on [None].  It prints nothing and
    assigns nothing. *)
Lemma save_file_without_document (params : gmap string pyval) (st : proc) :
  _document (self st) = None ->
  exists obs w,
    _save_file params st = (Returned obs, Proc (self st) (stdout st) w) /\
    success obs = false.
Proof.
  intros Hdoc. destruct st as [s0 out w]; cbn in *.
  unfold _save_file. destruct (negb (truthy (get params "file_path"))).
  - eexists _, _. split; reflexivity.
  - run. unfold call at 1. cbn [outside self stdout].
    destruct (abspath (get params "file_path") w) as [[path|e] w1]; run.
    2: { eexists _, _. split; reflexivity. }
    unfold call at 1. cbn [outside self stdout].
    destruct (systemPathToFileUrl path w1) as [[url|e] w2]; run.
    2: { eexists _, _. split; reflexivity. }
    rewrite Hdoc. run.
    eexists _, _. split; reflexivity.
Qed.

(** When the document closes, the first block of [close] drops the
    handle. *)
Lemma close_open_document_drops (st : proc) (doc : document) (w : world) :
  _document (self st) = Some doc ->
  close_document doc (outside st) = (Returned tt, w) ->
  close_open_document st =
  (Returned tt,
   Proc (set_document None (self st)) (List.app (stdout st) ["✅ Document closed."]) w).
Proof.
  intros Hdoc Hclose. destruct st as [s0 out w0]; cbn in *.
  unfold close_open_document. run. rewrite Hdoc. run.
  rewrite (run_call _ _ _ _ _ _ Hclose). run. reflexivity.
Qed.

(** The second block assigns nothing and never raises. *)
Lemma maintains_terminate_desktop (I : Self -> Prop) : maintains I terminate_desktop.
Proof. unfold terminate_desktop. frame. Qed.

Lemma returns_terminate_desktop : returns terminate_desktop.
Proof.
  unfold terminate_desktop. intros st. run.
  destruct (_libreoffice_context (self st)); [|apply returns_ret].
  apply returns_try. intros e st'. eexists _, _. reflexivity.
Qed.

(** The third block, reached without a document handle, cannot save: it
    announces the save and prints that it failed. *)
Lemma save_goal_without_document (st : proc) (goal : string) :
  _document (self st) = None ->
  _goal_excel (self st) = Some goal ->
  goal <> "" ->
  exists msg w,
    save_goal st =
    (Returned tt,
     Proc (self st)
          (List.app
             (List.app (stdout st) ["💾 Saving final Excel output to: " ++ goal])
             ["⚠️ Could not save goal Excel file: " ++ msg])
          w).
Proof.
  intros Hdoc Hgoal Hne. destruct st as [s0 out w0]; cbn in *.
  unfold save_goal. run. rewrite Hgoal. cbn [nonempty default from_option id].
  destruct (String.eqb_spec goal "") as [|_]; [contradiction|]. run.
  destruct (save_file_without_document {[ "file_path" := PStr goal ]}
              (Proc s0 (List.app out ["💾 Saving final Excel output to: " ++ goal]) w0)
              Hdoc) as (obs & w & E & Hfail).
  cbn [self stdout] in E. rewrite E. run. rewrite Hfail. run.
  eexists _, _. reflexivity.
Qed.

(** So whenever the document closes, [close] reaches the save with the
    handle gone, on every host. *)
Lemma close_reaches_save_without_document (st : proc) (doc : document) (w : world) :
  _document (self st) = Some doc ->
  close_document doc (outside st) = (Returned tt, w) ->
  exists st',
    (close_open_document;; terminate_desktop) st = (Returned tt, st') /\
    _document (self st') = None /\
    _goal_excel (self st') = _goal_excel (self st).
Proof.
  intros Hdoc Hclose.
  rewrite (run_bind_returned _ _ _ _ _ (close_open_document_drops st doc w Hdoc Hclose)).
  match goal with |- context [terminate_desktop ?st1] =>
    destruct (returns_terminate_desktop st1) as ([] & st' & E);
    pose proof (maintains_terminate_desktop (fun s => _document s = None) st1 eq_refl) as Hnone;
    pose proof (maintains_terminate_desktop
                  (fun s => _goal_excel s = _goal_excel (self st)) st1 eq_refl) as Hgoal;
    rewrite E in Hnone, Hgoal |- *
  end.
  exists st'. split; [reflexivity|]. split; assumption.
Qed.

(** * Further properties of the environment *)

(** ** What a step leaves of [self] *)

Ltac frame_loops :=
  frame; repeat (apply maintains_for_enumerate; intros; frame).

Ltac open_handler :=
  cbv delta [_create_sheet _open_file _save_file _set_cell _get_cell _set_range
             _get_range _set_formula _get_formula _add_sheet _delete_sheet
             _rename_sheet _format_cell _export_pdf _export_csv]; cbv beta zeta.

Lemma step_self (action : LibreOfficeAction) (st : proc) :
  self (after (step action) st) = self (after (_execute_command action) (counted st)).
Proof.
  destruct (returns_execute_command action (counted st)) as (obs & st' & E).
  unfold after, step. rewrite run_bind. cbn [assign]. fold (counted st).
  rewrite (run_bind_returned _ _ _ _ _ E), E. run. reflexivity.
Qed.

(** A handler is only run when the command is its name. *)
Lemma maintains_dispatch_named (I : Self -> Prop) chain c params :
  Forall (fun h => fst h = c -> forall params, maintains I (snd h params)) chain ->
  maintains I (dispatch chain c params).
Proof.
  induction 1 as [|[name handler] chain Hh _ IH]; simpl; [frame|].
  destruct (String.eqb_spec c name) as [->|Hne]; [apply Hh; reflexivity | exact IH].
Qed.

Lemma maintains_execute_command_named (I : Self -> Prop) action :
  Forall (fun h => fst h = command action -> forall params, maintains I (snd h params))
    handlers ->
  maintains I (_execute_command action).
Proof.
  intros Hhandlers. unfold _execute_command. frame.
  apply maintains_dispatch_named, Hhandlers.
Qed.

(** No handler assigns an attribute of the session. *)
Lemma maintains_session_handlers P :
  Forall (fun h => forall params, maintains (fun s => P (session s)) (snd h params))
    handlers.
Proof.
  unfold handlers.
  repeat (constructor; [intros params|]); [..|constructor]; cbn [snd].
  all: open_handler.
  all: frame_loops.
Qed.

(** Only [_open_file] assigns [_document]; only [_open_file], [_delete_sheet]
    and [_rename_sheet] assign [_current_sheet]; only [_open_file] and
    [_save_file] assign [_file_path]. *)
Lemma maintains_document_handlers v :
  Forall (fun h => fst h <> "open_file" ->
                   forall params, maintains (fun s => _document s = v) (snd h params))
    handlers.
Proof.
  unfold handlers.
  repeat (constructor; [intros Hname params|]); [..|constructor]; cbn [fst snd] in *.
  all: try congruence.
  all: open_handler.
  all: frame_loops.
Qed.

Lemma maintains_current_sheet_handlers v :
  Forall (fun h => ~ In (fst h) ["open_file"; "delete_sheet"; "rename_sheet"] ->
                   forall params, maintains (fun s => _current_sheet s = v) (snd h params))
    handlers.
Proof.
  unfold handlers.
  repeat (constructor; [intros Hname params|]); [..|constructor]; cbn [fst snd] in *.
  all: try (exfalso; apply Hname; cbn; tauto).
  all: open_handler.
  all: frame_loops.
Qed.

Lemma maintains_file_path_handlers v :
  Forall (fun h => ~ In (fst h) ["open_file"; "save_file"] ->
                   forall params, maintains (fun s => _file_path s = v) (snd h params))
    handlers.
Proof.
  unfold handlers.
  repeat (constructor; [intros Hname params|]); [..|constructor]; cbn [fst snd] in *.
  all: try (exfalso; apply Hname; cbn; tauto).
  all: open_handler.
  all: frame_loops.
Qed.

(** X1.  Whatever the actions and whatever the host answers, [n] calls of
    [step] count [n] steps and stay in the same episode: failed, refused and
    unknown commands count like the others. *)
Theorem steps_are_counted (actions : list LibreOfficeAction) (st : proc) :
  step_count (_state (self (run_steps actions st)))
    = step_count (_state (self st)) + Z.of_nat (List.length actions) /\
  episode_id (_state (self (run_steps actions st))) = episode_id (_state (self st)).
Proof.
  revert st. induction actions as [|action actions IH]; intros st.
  - cbn. split; [lia | reflexivity].
  - cbn [run_steps fold_left List.length].
    destruct (IH (snd (step action st))) as [IHcount IHid].
    destruct (step_counts_one action st) as [Hcount Hid]. unfold after in *.
    unfold run_steps in *. rewrite IHcount, IHid, Hcount, Hid. split; [lia | reflexivity].
Qed.

(** X2.  A step never changes the session: the reset count, the connection,
    the temporary directory, the initialized flag and the two configured
    paths are after any [step] what they were before. *)
Theorem step_keeps_session (action : LibreOfficeAction) (st : proc) :
  session (self (after (step action) st)) = session (self st).
Proof.
  rewrite step_self.
  exact (maintains_value session (_execute_command action) (counted st)
           (fun v => maintains_execute_command_named _ action
                       (Forall_impl _ _ _ (maintains_session_handlers (fun x => x = v))
                          (fun h Hh _ => Hh)))).
Qed.

(** X3.  Which steps can replace the handles: a step whose command is not
    [open_file] leaves [_document] as it was; one that is none of
    [open_file], [delete_sheet], [rename_sheet] leaves [_current_sheet];
    one that is neither [open_file] nor [save_file] leaves [_file_path]. *)
Theorem step_keeps_handles (action : LibreOfficeAction) (st : proc) :
  (command action <> "open_file" ->
   _document (self (after (step action) st)) = _document (self st)) /\
  (~ In (command action) ["open_file"; "delete_sheet"; "rename_sheet"] ->
   _current_sheet (self (after (step action) st)) = _current_sheet (self st)) /\
  (~ In (command action) ["open_file"; "save_file"] ->
   _file_path (self (after (step action) st)) = _file_path (self st)).
Proof.
  rewrite step_self. repeat split; intros Hcommand.
  - refine (maintains_value _document (_execute_command action) (counted st)
              (fun v => maintains_execute_command_named _ action _)).
    eapply Forall_impl; [exact (maintains_document_handlers v)|].
    intros h Hh Hname. apply Hh. congruence.
  - refine (maintains_value _current_sheet (_execute_command action) (counted st)
              (fun v => maintains_execute_command_named _ action _)).
    eapply Forall_impl; [exact (maintains_current_sheet_handlers v)|].
    intros h Hh Hname. apply Hh. congruence.
  - refine (maintains_value _file_path (_execute_command action) (counted st)
              (fun v => maintains_execute_command_named _ action _)).
    eapply Forall_impl; [exact (maintains_file_path_handlers v)|].
    intros h Hh Hname. apply Hh. congruence.
Qed.

(** ** Steps that are refused *)

(** X4.  A step on an environment whose [_initialized] flag is down is
    answered by the not-initialized failure, whatever the command; it is
    counted, and nothing else happens: no call reaches the host and nothing
    is printed. *)
Theorem uninitialized_step_is_refused (action : LibreOfficeAction) (st : proc) :
  _initialized (self st) = false ->
  step action st = (Returned (completed action (counted st) refused_step), counted st).
Proof.
  intros E. unfold step, _execute_command. run. rewrite E. run. reflexivity.
Qed.

Ltac falsy_key Hk Hfalsy :=
  cbn [In] in Hk;
  repeat match type of Hk with
         | _ \/ _ => destruct Hk as [<-|Hk]
         | False => contradiction
         end;
  rewrite Hfalsy; cbn [negb orb]; rewrite ?orb_true_r; reflexivity.

(** X5.  The parameter checks.  On an initialized environment, a command
    with a required parameter that is missing, [None] or otherwise false
    (an empty string, an empty list, zero) is answered by that command's
    missing-parameter failure; the step is counted and nothing else
    happens. *)
Theorem step_missing_parameter (action : LibreOfficeAction) (st : proc)
    (c : string) (keys : list string) (r msg : string) :
  _initialized (self st) = true ->
  In (c, keys, r, msg) required ->
  command action = c ->
  (exists k, In k keys /\ truthy (get (parameters action) k) = false) ->
  step action st =
  (Returned (completed action (counted st)
               (observation r false |> with_error_message msg)),
   counted st).
Proof.
  intros Hinit Hin Hc (k & Hk & Hfalsy). unfold required in Hin. cbn [In] in Hin.
  repeat match type of Hin with
         | _ \/ _ =>
             destruct Hin as [E|Hin];
             [ injection E as <- <- <- <-;
               unfold completed;
               eapply step_runs_handler;
               [ exact Hinit
               | rewrite Hc; reflexivity
               | cbn [snd]; open_handler; falsy_key Hk Hfalsy ]
             | ]
         end.
  contradiction.
Qed.

(** X6.  An exception raised outside a handler's own [try] is caught by the
    dispatcher: [add_sheet] on an initialized environment that holds no
    document fails on the [getSheets] of its default name, and the step
    returns the dispatcher's failure. *)
Theorem add_sheet_without_document (action : LibreOfficeAction) (st : proc) :
  _initialized (self st) = true ->
  _document (self st) = None ->
  command action = "add_sheet" ->
  step action st =
  (Returned
     (completed action (counted st)
        (observation
           ("Error executing command: "
            ++ "'NoneType' object has no attribute 'getSheets'") false
         |> with_error_message "'NoneType' object has no attribute 'getSheets'")),
   counted st).
Proof.
  intros Hinit Hdoc Hc. unfold completed, step, _execute_command. run.
  rewrite Hinit. run. rewrite dispatch_handler, Hc.
  change (find (fun h => String.eqb "add_sheet" (fst h)) handlers)
    with (Some ("add_sheet", _add_sheet)).
  cbn [snd]. unfold _add_sheet. run. rewrite Hdoc. run. reflexivity.
Qed.

(** X7.  In the observation of every step, an error message means a
    failure; and for every command but [export_pdf], a failure comes with an
    error message. *)
Theorem step_error_message (action : LibreOfficeAction) (st st' : proc)
    (obs : LibreOfficeObservation) :
  step action st = (Returned obs, st') ->
  (error_message obs <> None -> success obs = false) /\
  (command action <> "export_pdf" -> success obs = false -> error_message obs <> None).
Proof.
  intros Hrun. split.
  - exact (step_message_means_failure action _ _ _ Hrun).
  - intros Hcommand. exact (step_failure_has_message action Hcommand _ _ _ Hrun).
Qed.

(** ** Reset and close *)

Lemma returns_print line : returns (print line).
Proof. intros st. eexists _, _. reflexivity. Qed.

Lemma returns_cleanup : returns _cleanup_libreoffice.
Proof. unfold _cleanup_libreoffice. apply returns_try. intros e. apply returns_print. Qed.

Lemma returns_close_open_document : returns close_open_document.
Proof.
  unfold close_open_document. intros st. run.
  destruct (_document (self st)); [|apply returns_ret].
  apply returns_try. intros e. apply returns_print.
Qed.

Lemma returns_save_goal : returns save_goal.
Proof.
  unfold save_goal. intros st. run.
  destruct (nonempty (_goal_excel (self st))); [|apply returns_ret].
  apply returns_try. intros e. apply returns_print.
Qed.

(** [close] never fails: its blocks are all guarded. *)
Lemma close_returns (st : proc) :
  exists st', close st = (Returned closed, st') /\ _initialized (self st') = false.
Proof.
  unfold close. rewrite run_bind. cbn [print]. rewrite run_try.
  match goal with |- context [(close_open_document ≫= _) ?st1] =>
    destruct (returns_close_open_document st1) as ([] & st2 & E1);
    rewrite (run_bind_returned _ _ _ _ _ E1) end.
  destruct (returns_terminate_desktop st2) as ([] & st3 & E2).
  rewrite (run_bind_returned _ _ _ _ _ E2).
  destruct (returns_save_goal st3) as ([] & st4 & E3).
  rewrite (run_bind_returned _ _ _ _ _ E3).
  destruct (returns_cleanup st4) as ([] & st5 & E4).
  rewrite (run_bind_returned _ _ _ _ _ E4). run.
  eexists. split; reflexivity.
Qed.

(** X8.  [close] always returns its success observation, whatever state the
    environment is in and whatever the host answers, and leaves the
    environment not initialized: a second [close] succeeds too, and every
    later step is refused as not initialized. *)
Theorem close_is_final (st : proc) :
  exists st',
    close st = (Returned closed, st') /\
    _initialized (self st') = false /\
    (exists st'', close st' = (Returned closed, st'')) /\
    (forall action,
       step action st' = (Returned (completed action (counted st') refused_step),
                          counted st')).
Proof.
  destruct (close_returns st) as (st' & E & Hdown).
  exists st'. split; [exact E|]. split; [exact Hdown|]. split.
  - destruct (close_returns st') as (st'' & E' & _). exists st''. exact E'.
  - intros action. unfold step, _execute_command. run. rewrite Hdown. run. reflexivity.
Qed.

Lemma maintains_episode_cleanup P :
  maintains (fun s => P (episode s)) _cleanup_libreoffice.
Proof. unfold _cleanup_libreoffice. frame. Qed.

Lemma maintains_episode_open_file P params :
  maintains (fun s => P (episode s)) (_open_file params).
Proof. unfold _open_file. frame. Qed.

Lemma maintains_episode_connect P resolver attempts :
  maintains (fun s => P (episode s)) (connect resolver attempts).
Proof. induction attempts as [|attempt rest IH]; simpl; frame. Qed.

Lemma maintains_episode_initialize P :
  maintains (fun s => P (episode s)) _initialize_libreoffice.
Proof.
  unfold _initialize_libreoffice.
  pose proof (maintains_episode_connect P) as Hconnect.
  pose proof (maintains_episode_open_file P) as Hopen.
  frame.
Qed.

(** X9.  Every [reset], connected or refused, starts an episode: the step
    count is zero, the reset count is one more, and the configured base and
    goal paths are kept. *)
Theorem reset_starts_episode (st : proc) :
  step_count (_state (self (after reset st))) = 0 /\
  _reset_count (self (after reset st)) = _reset_count (self st) + 1 /\
  _base_excel (self (after reset st)) = _base_excel (self st) /\
  _goal_excel (self (after reset st)) = _goal_excel (self st).
Proof.
  unfold after, reset. rewrite run_bind. cbn [print].
  match goal with |- context [(_cleanup_libreoffice ≫= _) ?st1] =>
    pose proof (maintains_value episode _cleanup_libreoffice st1
                  (fun v => maintains_episode_cleanup (fun x => x = v))) as Hclean;
    destruct (returns_cleanup st1) as ([] & st2 & E);
    rewrite E in Hclean; rewrite (run_bind_returned _ _ _ _ _ E)
  end.
  cbn [snd self] in Hclean. injection Hclean as _ Hcount Hbase Hgoal.
  destruct st2 as [s2 out2 w2]. cbn [self] in *.
  rewrite run_bind. unfold call_total. cbn [outside self stdout].
  destruct (uuid4 w2) as [id w3]. cbv beta iota.
  rewrite run_bind. cbn [assign self stdout outside].
  rewrite run_bind. cbn [assign self stdout outside].
  match goal with |- context [snd ((_initialize_libreoffice ≫= ?k) ?st3)] =>
    set (final := snd ((_initialize_libreoffice ≫= k) st3));
    assert (Hrest : episode (self final) = episode (self st3))
      by (subst final; apply maintains_value; intros v;
          apply maintains_bind;
          [apply (maintains_episode_initialize (fun x => x = v))|];
          intros initialized; frame)
  end.
  unfold episode in Hrest. cbn [self] in Hrest.
  injection Hrest as Hs Hr Hb Hg. rewrite Hs, Hr, Hb, Hg. cbn.
  rewrite Hcount, Hbase, Hgoal. repeat split.
Qed.

(** ** Handlers *)

Lemma get_sheet_named (name : pyval) :
  name <> PNone ->
  _get_sheet name =
  (d ← attr _document; doc ← deref d "getSheets";
   shs ← call (getSheets doc);
   try_except (s ← call (getByName shs name); mret (Some s))
     (fun _ => attr _current_sheet)).
Proof. intros Hname. destruct name; try reflexivity; congruence. Qed.

(** X10.  A write addressed to a sheet that the document does not resolve
    goes to the current sheet without a word: [_set_cell] with a ["sheet"]
    on which [getByName] raises writes the cell of the current sheet and
    reports success, naming the current sheet. *)
Theorem set_cell_unknown_sheet (params : gmap string pyval) (st : proc)
    (doc : document) (shs : sheets) (e : exn) (current : sheet)
    (cell_range : cells) (name : string) (w1 w2 w3 w4 w5 : world) :
  truthy (get params "cell") = true ->
  get params "sheet" <> PNone ->
  _document (self st) = Some doc ->
  _current_sheet (self st) = Some current ->
  getSheets doc (outside st) = (Returned shs, w1) ->
  getByName shs (get params "sheet") w1 = (Raised e, w2) ->
  getCellRangeByName current (get params "cell") w2 = (Returned cell_range, w3) ->
  write_value cell_range (get params "value") (Proc (self st) (stdout st) w3)
    = (Returned tt, Proc (self st) (stdout st) w4) ->
  getName current w4 = (Returned name, w5) ->
  _set_cell params st =
  (Returned
     (observation
        ("Cell " ++ str (get params "cell") ++ " set to " ++ str (get params "value"))
        true
      |> with_current_sheet (PStr name)),
   Proc (self st) (stdout st) w5).
Proof.
  intros Hcell Hsheet Hdoc Hcurrent Hsheets Hby Hrange Hwrite Hname.
  destruct st as [s0 out w]; cbn in *.
  unfold _set_cell. rewrite Hcell, (get_sheet_named _ Hsheet). run.
  rewrite Hdoc. run. rewrite (run_call _ _ _ _ _ _ Hsheets). run.
  rewrite (run_call _ _ _ _ _ _ Hby). run. rewrite Hcurrent. run.
  rewrite (run_call _ _ _ _ _ _ Hrange). run. rewrite Hwrite. run.
  rewrite (run_call _ _ _ _ _ _ Hname). run. reflexivity.
Qed.

(** X11.  [_open_file] closes the current document before it loads the new
    one.  When the desktop then loads nothing, the handler reports the
    failure and the environment is left without a document: [_document] is
    [None], the current sheet and the file path are the old ones, and a
    [save_file] that follows fails. *)
Theorem open_file_failure_drops_document (params params' : gmap string pyval)
    (st : proc) (path url : string) (doc : document) (ctx : context)
    (desk : desktop) (w1 w2 w3 w4 w5 : world) :
  truthy (get params "file_path") = true ->
  abspath (get params "file_path") (outside st) = (Returned path, w1) ->
  systemPathToFileUrl path w1 = (Returned url, w2) ->
  _document (self st) = Some doc ->
  close_document doc w2 = (Returned tt, w3) ->
  _libreoffice_context (self st) = Some ctx ->
  createDesktop ctx w3 = (Returned (Some desk), w4) ->
  loadComponentFromURL desk url w4 = (Returned None, w5) ->
  _open_file params st =
  (Returned
     (observation "Failed to open file" false
      |> with_error_message "Could not open the specified file"),
   Proc (set_document None (self st)) (stdout st) w5) /\
  exists obs w,
    _save_file params' (Proc (set_document None (self st)) (stdout st) w5)
      = (Returned obs, Proc (set_document None (self st)) (stdout st) w) /\
    success obs = false.
Proof.
  intros Hpath Habs Hurl Hdoc Hclose Hctx Hdesk Hload. split.
  - destruct st as [s0 out w]; cbn in *.
    unfold _open_file. rewrite Hpath. run.
    rewrite (run_call _ _ _ _ _ _ Habs). run.
    rewrite (run_call _ _ _ _ _ _ Hurl). run. rewrite Hdoc. run.
    rewrite (run_call _ _ _ _ _ _ Hclose). run. rewrite Hctx. run.
    rewrite (run_call _ _ _ _ _ _ Hdesk). run.
    rewrite (run_call _ _ _ _ _ _ Hload). run. reflexivity.
  - exact (save_file_without_document params'
             (Proc (set_document None (self st)) (stdout st) w5) eq_refl).
Qed.

(** X12.  [_export_pdf] decides success by looking for the file after the
    export: when the directory is writable and [storeToURL] returns, the
    observation's [success] is the answer of [os.path.exists], and its data
    names the file either way. *)
Theorem export_pdf_reports_existence (params : gmap string pyval) (st : proc)
    (dir dir' path url : string) (doc : document) (found : bool)
    (w1 w2 w3 w4 w5 w6 w7 w8 : world) :
  truthy (get params "file_path") = true ->
  dirname (get params "file_path") (outside st) = (Returned dir, w1) ->
  makedirs dir w1 = (Returned tt, w2) ->
  dirname (get params "file_path") w2 = (Returned dir', w3) ->
  access_W_OK dir' w3 = (Returned true, w4) ->
  abspath (get params "file_path") w4 = (Returned path, w5) ->
  systemPathToFileUrl path w5 = (Returned url, w6) ->
  _document (self st) = Some doc ->
  storeToURL doc url
    (PropertyValues [("FilterName", PStr "calc_pdf_Export"); ("Overwrite", PBool true)])
    w6 = (Returned tt, w7) ->
  path_exists (get params "file_path") w7 = (Returned found, w8) ->
  _export_pdf params st =
  (Returned
     (observation
        (if found then "PDF export completed"
         else "Export command issued but file not found")
        found
      |> with_data (PDict [("exported_file", get params "file_path")])),
   Proc (self st) (stdout st) w8).
Proof.
  intros Hpath Hdir Hmake Hdir' Haccess Habs Hurl Hdoc Hstore Hfound.
  destruct st as [s0 out w]; cbn in *.
  unfold _export_pdf. rewrite Hpath. run.
  rewrite (run_call _ _ _ _ _ _ Hdir). run.
  rewrite (run_call _ _ _ _ _ _ Hmake). run.
  rewrite (run_call _ _ _ _ _ _ Hdir'). run.
  rewrite (run_call _ _ _ _ _ _ Haccess). run.
  rewrite (run_call _ _ _ _ _ _ Habs). run.
  rewrite (run_call _ _ _ _ _ _ Hurl). run. rewrite Hdoc. run.
  rewrite (run_call _ _ _ _ _ _ Hstore). run.
  rewrite (run_call _ _ _ _ _ _ Hfound). run. reflexivity.
Qed.

(** X13.  [_export_pdf] into a directory that is not writable fails before
    any export: the observation names the directory, and the document is
    not asked to store anything. *)
Theorem export_pdf_unwritable_directory (params : gmap string pyval) (st : proc)
    (dir dir' dir'' : string) (w1 w2 w3 w4 w5 : world) :
  truthy (get params "file_path") = true ->
  dirname (get params "file_path") (outside st) = (Returned dir, w1) ->
  makedirs dir w1 = (Returned tt, w2) ->
  dirname (get params "file_path") w2 = (Returned dir', w3) ->
  access_W_OK dir' w3 = (Returned false, w4) ->
  dirname (get params "file_path") w4 = (Returned dir'', w5) ->
  _export_pdf params st =
  (Returned
     (observation ("Directory not writable: " ++ dir'') false
      |> with_error_message "Target directory is not writable"),
   Proc (self st) (stdout st) w5).
Proof.
  intros Hpath Hdir Hmake Hdir' Haccess Hdir''.
  destruct st as [s0 out w]; cbn in *.
  unfold _export_pdf. rewrite Hpath. run.
  rewrite (run_call _ _ _ _ _ _ Hdir). run.
  rewrite (run_call _ _ _ _ _ _ Hmake). run.
  rewrite (run_call _ _ _ _ _ _ Hdir'). run.
  rewrite (run_call _ _ _ _ _ _ Haccess). run.
  rewrite (run_call _ _ _ _ _ _ Hdir''). run. reflexivity.
Qed.

(** ** Connecting and cleaning up *)

(** When every attempt is refused, the loop tries each attempt of its list
    once, prints one line per attempt, and raises. *)
Lemma connect_all_refused (P : world -> Prop) (resolver : url_resolver) :
  (forall w, P w ->
     exists msg w',
       resolve resolver connection_url w = (Raised (Exn NoConnectException msg), w') /\
       P (sleep 1.5 w')) ->
  forall attempts s out w,
    P w ->
    exists w',
      connect resolver attempts (Proc s out w) =
      (Raised (Exn RuntimeError "Could not connect to LibreOffice UNO socket."),
       Proc s (List.app out (map not_ready attempts)) w') /\
      P w'.
Proof.
  intros Hrefused. induction attempts as [|attempt rest IH]; intros s out w HP.
  - exists w. cbn [connect map]. rewrite List.app_nil_r. split; [reflexivity | exact HP].
  - destruct (Hrefused w HP) as (msg & w' & Hresolve & HP').
    destruct (IH s (List.app out [not_ready attempt]) (sleep 1.5 w') HP')
      as (w'' & Hrest & HP'').
    exists w''. split; [|exact HP''].
    cbn [connect]. run. rewrite (run_call _ _ _ _ _ _ Hresolve). run.
    cbn [exn_cls exn_str]. run. fold (not_ready attempt). fold connect.
    rewrite Hrest. cbn [map]. rewrite <- List.app_assoc. reflexivity.
Qed.

(** X14.  The connection is tried ten times and no more.  When the local
    context and the resolver are obtained and every attempt is refused,
    [_initialize_libreoffice] prints the ten attempts, gives up and returns
    [False], and assigns nothing: the environment object is as it was. *)
Theorem initialize_gives_up_after_ten (P : world -> Prop) (st : proc)
    (local_ctx : local_context) (resolver : url_resolver) (w1 w2 : world) :
  getComponentContext (outside st) = (Returned local_ctx, w1) ->
  createUnoUrlResolver local_ctx w1 = (Returned resolver, w2) ->
  P w2 ->
  (forall w, P w ->
     exists msg w',
       resolve resolver connection_url w = (Raised (Exn NoConnectException msg), w') /\
       P (sleep 1.5 w')) ->
  exists w',
    _initialize_libreoffice st =
    (Returned false,
     Proc (self st)
       (List.app (stdout st)
          (List.app
             [ "🔧 Initializing LibreOffice environment...";
               "🔌 Attempting to connect to LibreOffice UNO service at " ++ connection_url;
               "⏳ Waiting for LibreOffice to be ready...";
               "✅ Obtained local UNO component context." ]
             (List.app
                (map not_ready [0; 1; 2; 3; 4; 5; 6; 7; 8; 9])
                [ "❌ Failed to initialize LibreOffice: "
                  ++ "Could not connect to LibreOffice UNO socket." ])))
       w').
Proof.
  intros Hlocal Hresolver HP Hrefused.
  destruct st as [s0 out w]; cbn in *.
  destruct (connect_all_refused P resolver Hrefused (range 10) s0
              (List.app
                 (List.app
                    (List.app
                       (List.app out ["🔧 Initializing LibreOffice environment..."])
                       ["🔌 Attempting to connect to LibreOffice UNO service at "
                        ++ connection_url])
                    ["⏳ Waiting for LibreOffice to be ready..."])
                 ["✅ Obtained local UNO component context."])
              w2 HP) as (w' & Hconnect & _).
  eexists. unfold _initialize_libreoffice. run.
  rewrite (run_call _ _ _ _ _ _ Hlocal). run.
  rewrite (run_call _ _ _ _ _ _ Hresolver). run.
  rewrite Hconnect. run. cbn [exn_str].
  change (map not_ready (range 10)) with (map not_ready [0; 1; 2; 3; 4; 5; 6; 7; 8; 9]).
  rewrite <- !List.app_assoc. reflexivity.
Qed.

(** X15.  [_cleanup_libreoffice] has a single [try]: when closing the
    document raises, the error is printed and the cleanup stops there: the
    document handle stays, and the temporary directory is neither looked
    for nor removed. *)
Theorem cleanup_stops_at_first_error (st : proc) (doc : document) (e : exn)
    (w : world) :
  _document (self st) = Some doc ->
  close_document doc (outside st) = (Raised e, w) ->
  _cleanup_libreoffice st =
  (Returned tt,
   Proc (self st) (List.app (stdout st) ["Error during cleanup: " ++ exn_str e]) w).
Proof.
  intros Hdoc Hclose. destruct st as [s0 out w0]; cbn in *.
  unfold _cleanup_libreoffice. run. rewrite Hdoc. run.
  rewrite (run_call _ _ _ _ _ _ Hclose). run. reflexivity.
Qed.

(** ** Sheets *)

(** X16.  [_create_sheet] creates nothing: it asks the current sheet for
    its name twice and reports that name as the current sheet and as the
    only sheet, whatever the document holds; the environment object is
    untouched. *)
Theorem create_sheet_reports_current_sheet (params : gmap string pyval) (st : proc)
    (current : sheet) (name name' : string) (w1 w2 : world) :
  _current_sheet (self st) = Some current ->
  getName current (outside st) = (Returned name, w1) ->
  getName current w1 = (Returned name', w2) ->
  _create_sheet params st =
  (Returned
     (observation "New spreadsheet created" true
      |> with_current_sheet (PStr name)
      |> with_sheet_names [name']),
   Proc (self st) (stdout st) w2).
Proof.
  intros Hcurrent Hname Hname'. destruct st as [s0 out w]; cbn in *.
  unfold _create_sheet. run. rewrite Hcurrent. run.
  rewrite (run_call _ _ _ _ _ _ Hname). run. rewrite Hcurrent. run.
  rewrite (run_call _ _ _ _ _ _ Hname'). run. reflexivity.
Qed.

(** X17.  [_rename_sheet] reports the new name as the current sheet also
    when another sheet is current: renaming a sheet while the current
    sheet's name is not the old name leaves [_current_sheet] as it was, and
    the observation's [current_sheet] is the new name. *)
Theorem rename_sheet_reports_new_name (params : gmap string pyval) (st : proc)
    (doc : document) (shs : sheets) (renamed current : sheet) (name : string)
    (names : list string) (w1 w2 w3 w4 w5 : world) :
  truthy (get params "old_name") = true ->
  truthy (get params "new_name") = true ->
  _document (self st) = Some doc ->
  getSheets doc (outside st) = (Returned shs, w1) ->
  getByName shs (get params "old_name") w1 = (Returned renamed, w2) ->
  setName renamed (get params "new_name") w2 = (Returned tt, w3) ->
  _current_sheet (self st) = Some current ->
  getName current w3 = (Returned name, w4) ->
  str_eq name (get params "old_name") = false ->
  all_sheet_names shs (Proc (self st) (stdout st) w4)
    = (Returned names, Proc (self st) (stdout st) w5) ->
  _rename_sheet params st =
  (Returned
     (observation
        ("Sheet renamed from '" ++ str (get params "old_name") ++ "' to '"
         ++ str (get params "new_name") ++ "'") true
      |> with_current_sheet (get params "new_name")
      |> with_sheet_names names),
   Proc (self st) (stdout st) w5) /\
  _get_sheet PNone (Proc (self st) (stdout st) w5)
    = (Returned (Some current), Proc (self st) (stdout st) w5).
Proof.
  intros Hold Hnew Hdoc Hsheets Hby Hset Hcurrent Hname Hother Hnames. split.
  - destruct st as [s0 out w]; cbn in *.
    unfold _rename_sheet. rewrite Hold, Hnew. cbn [negb orb]. run.
    rewrite Hdoc. run. rewrite (run_call _ _ _ _ _ _ Hsheets). run.
    rewrite (run_call _ _ _ _ _ _ Hby). run.
    rewrite (run_call _ _ _ _ _ _ Hset). run. rewrite Hcurrent. run.
    rewrite (run_call _ _ _ _ _ _ Hname). run. rewrite Hother. run.
    rewrite Hnames. run. reflexivity.
  - rewrite <- Hcurrent. reflexivity.
Qed.

(** X18.  [_delete_sheet] asks the current sheet for its name after the
    removal.  When that call raises, as it does on a sheet that is gone, the
    handler reports a failure although the sheet has been removed, and
    [_current_sheet] still holds the old handle. *)
Theorem delete_sheet_fails_after_removal (params : gmap string pyval) (st : proc)
    (doc : document) (shs : sheets) (removed current : sheet) (e : exn)
    (w1 w2 w3 w4 : world) :
  truthy (get params "name") = true ->
  _document (self st) = Some doc ->
  getSheets doc (outside st) = (Returned shs, w1) ->
  getByName shs (get params "name") w1 = (Returned removed, w2) ->
  remove shs removed w2 = (Returned tt, w3) ->
  _current_sheet (self st) = Some current ->
  getName current w3 = (Raised e, w4) ->
  _delete_sheet params st =
  (Returned
     (observation ("Error deleting sheet: " ++ exn_str e) false
      |> with_error_message (exn_str e)),
   Proc (self st) (stdout st) w4).
Proof.
  intros Hname Hdoc Hsheets Hby Hremove Hcurrent Hraise.
  destruct st as [s0 out w]; cbn in *.
  unfold _delete_sheet. rewrite Hname. run.
  rewrite Hdoc. run. rewrite (run_call _ _ _ _ _ _ Hsheets). run.
  rewrite (run_call _ _ _ _ _ _ Hby). run.
  rewrite (run_call _ _ _ _ _ _ Hremove). run. rewrite Hcurrent. run.
  rewrite (run_call _ _ _ _ _ _ Hraise). run. reflexivity.
Qed.

(** X19.  [_format_cell] tests [format_options] with [in] inside its [try]:
    options on which [in] raises ([None], a number) are answered by a
    failure that carries the interpreter's message, once the cell has been
    resolved and before any property is set. *)
Theorem format_cell_options_not_a_container (params : gmap string pyval)
    (st st1 : proc) (options : pyval) (target : sheet) (cell_range : cells)
    (e : exn) (w : world) :
  truthy (get params "cell") = true ->
  params !! "format_options" = Some options ->
  py_in "bold" options = Raised e ->
  _get_sheet (get params "sheet") st = (Returned (Some target), st1) ->
  getCellRangeByName target (get params "cell") (outside st1) = (Returned cell_range, w) ->
  _format_cell params st =
  (Returned
     (observation ("Error formatting cell: " ++ exn_str e) false
      |> with_error_message (exn_str e)),
   Proc (self st1) (stdout st1) w).
Proof.
  intros Hcell Hoptions Hin Hsheet Hrange.
  unfold _format_cell, get_or. rewrite Hcell, Hoptions. cbn [negb default from_option id].
  rewrite run_try, (run_bind_returned _ _ _ _ _ Hsheet).
  destruct st1 as [s1 out1 w1]; cbn in *. run.
  rewrite (run_call _ _ _ _ _ _ Hrange). run. rewrite Hin. run. reflexivity.
Qed.

(** ** The client's convenience methods *)

Lemma get_with_sheet (sheet : pyval) (params : gmap string pyval) (key : string) :
  key <> "sheet" ->
  get (Client.with_sheet sheet params) key = get params key.
Proof.
  intros Hkey. unfold Client.with_sheet, get.
  destruct (truthy sheet); [|reflexivity].
  rewrite lookup_insert_ne by congruence. reflexivity.
Qed.

Lemma get_sheet_with_sheet (sheet : pyval) (params : gmap string pyval) :
  params !! "sheet" = None ->
  get (Client.with_sheet sheet params) "sheet" = if truthy sheet then sheet else PNone.
Proof.
  intros Hnone. unfold Client.with_sheet, get.
  destruct (truthy sheet).
  - rewrite lookup_insert_eq. reflexivity.
  - rewrite Hnone. reflexivity.
Qed.

(** X20.  The client and the server agree on the commands and on the
    parameter names.  The action of every convenience method carries a
    command that [step] dispatches, and every parameter that the command's
    handler checks is read back, under the handler's key, as one of the
    arguments the method requires. *)
Theorem client_methods_match_handlers
    (cell value range_name values formula file_path name old_name new_name
     format_options sheet : pyval) :
  Forall
    (fun method =>
       dispatched (command (fst method)) = true /\
       forall c keys r msg,
         In (c, keys, r, msg) required ->
         command (fst method) = c ->
         Forall (fun key => In (get (parameters (fst method)) key) (snd method)) keys)
    (Client.methods cell value range_name values formula file_path name old_name
       new_name format_options sheet).
Proof.
  unfold Client.methods. repeat (constructor; [split; [reflexivity|]|]).
  all: try solve [constructor].
  all: cbn [fst snd command parameters Client.set_cell Client.get_cell
              Client.set_range Client.get_range Client.set_formula
              Client.get_formula Client.open_file Client.save_file
              Client.add_sheet Client.delete_sheet Client.rename_sheet
              Client.format_cell Client.export_pdf Client.export_csv].
  all: intros c keys r msg Hin Hc; subst c.
  all: unfold required in Hin; cbn [In] in Hin.
  all: repeat (destruct Hin as [Hin|Hin]; [try discriminate Hin|]); try contradiction.
  all: injection Hin as <- _ _.
  all: repeat first [apply List.Forall_nil | apply List.Forall_cons].
  all: rewrite ?get_with_sheet by discriminate.
  all: vm_compute; auto.
Qed.

(** X21.  A method called without a sheet, or with an empty one, sends no
    ["sheet"] parameter, and the handler then works on the current sheet
    without asking the document: [_get_sheet] on what the handler reads
    returns [_current_sheet] and touches nothing. *)
Theorem client_omitted_sheet
    (cell value range_name values formula format_options sheet : pyval)
    (st : proc) :
  truthy sheet = false ->
  Forall
    (fun action =>
       parameters action !! "sheet" = None /\
       _get_sheet (get (parameters action) "sheet") st
         = (Returned (_current_sheet (self st)), st))
    (Client.on_sheet cell value range_name values formula format_options sheet).
Proof.
  intros Hsheet. unfold Client.on_sheet. repeat constructor.
  all: cbn [parameters Client.set_cell Client.get_cell Client.set_range
              Client.get_range Client.set_formula Client.get_formula
              Client.format_cell].
  all: try (unfold Client.with_sheet; rewrite Hsheet; reflexivity).
  all: rewrite get_sheet_with_sheet by reflexivity.
  all: rewrite Hsheet; destruct st; reflexivity.
Qed.

End Properties.

(** ** The statements on the simulated host *)

Lemma returned_pair `{Host} {A} (r : outcome A * proc) (a : A) :
  fst r = Returned a -> r = (Returned a, snd r).
Proof. destruct r as [o st]. cbn. intros ->. reflexivity. Qed.

(** The first reset connects; the second one is refused and reports it, but
    leaves [_initialized] set. *)
Lemma second_reset_refused :
  _initialized (self Scenario.ready) = true /\
  success (observed (answer reset Scenario.ready)) = false /\
  error_message (observed (answer reset Scenario.ready))
    = Some "Could not connect to LibreOffice" /\
  _document (self Scenario.refused) = None /\
  _initialized (self Scenario.refused) = true.
Proof. vm_compute. repeat split; reflexivity. Qed.

(** Before any reset, and after a first reset that the office refuses, the
    environment is not initialized. *)
Example not_initialized_before_reset :
  _initialized (self (Scenario.created None)) = false /\
  _initialized
    (self (after reset
             (__init__ (H := Sim.host) None None
                (Sim.with_listening [] Sim.office0)))) = false.
Proof. split; vm_compute; reflexivity. Qed.

Lemma step_unknown_command_witness :
  exists obs st',
    step (action "copy_range" ∅) Scenario.ready = (Returned obs, st') /\
    success obs = false /\
    error_message obs = Some ("Command '" ++ "copy_range" ++ "' not supported") /\
    contains "copy_range" ("Command '" ++ "copy_range" ++ "' not supported") = true /\
    step_count (_state (self st')) = step_count (_state (self Scenario.ready)) + 1.
Proof.
  exact (step_unknown_command (H := Sim.host) (action "copy_range" ∅) Scenario.ready
           eq_refl eq_refl).
Defined.

(** C3, where the code departs from it.  A [step] after a reset whose
    connection was refused must fail as not initialized; the refused reset
    of an environment that was connected before leaves [_initialized] set,
    and the step is dispatched: an unknown command is answered as unknown,
    [get_cell] by the error of the closed document. *)
Theorem step_after_refused_reset :
  success (observed (answer reset Scenario.ready)) = false /\
  _initialized (self Scenario.refused) = true /\
  answer (step (action "copy_range" ∅)) Scenario.refused
    = Returned
        (observation "Unknown command: copy_range" false
         |> with_error_message "Command 'copy_range' not supported"
         |> with_metadata
              {[ "step" := PInt 1; "command" := PStr "copy_range";
                 "episode_id" := PStr "episode-4" ]}
         |> with_reward (-0.1)
         |> with_done false) /\
  answer (step (action "get_cell" {[ "cell" := PStr "A1" ]})) Scenario.refused
    = Returned
        (observation "Error getting cell: com.sun.star.lang.DisposedException" false
         |> with_error_message "com.sun.star.lang.DisposedException"
         |> with_metadata
              {[ "step" := PInt 1; "command" := PStr "get_cell";
                 "episode_id" := PStr "episode-4" ]}
         |> with_reward (-0.1)
         |> with_done false).
Proof. repeat split; vm_compute; reflexivity. Qed.

(** C4, where the code departs from it.  When the PDF filter returns and the
    file is not there, [export_pdf] reports a failure and no error
    message. *)
Theorem export_pdf_failure_without_message :
  answer (step (action "export_pdf" {[ "file_path" := PStr "/tmp/report.pdf" ]}))
         Scenario.ready_without_pdf
    = Returned
        (observation "Export command issued but file not found" false
         |> with_data (PDict [("exported_file", PStr "/tmp/report.pdf")])
         |> with_metadata
              {[ "step" := PInt 1; "command" := PStr "export_pdf";
                 "episode_id" := PStr "episode-1" ]}
         |> with_reward (-0.1)
         |> with_done false) /\
  error_message
    (observed (answer (step (action "export_pdf"
                               {[ "file_path" := PStr "/tmp/report.pdf" ]}))
                      Scenario.ready_without_pdf)) = None.
Proof. split; vm_compute; reflexivity. Qed.

(** C5, where the code departs from it.  With a goal path configured,
    [close()] closes the document and drops its handle first, and only then
    calls [_save_file], which fails on the missing handle: nothing is
    written to the goal path, the failure is printed, and the close reports
    success.  [_save_file] called before the close does write the file. *)
Theorem close_saves_after_release :
  _goal_excel (self Scenario.ready_with_goal) = Some Scenario.goal_path /\
  Sim.on_disk Scenario.goal_path
    (outside (after (_save_file {[ "file_path" := PStr Scenario.goal_path ]})
                Scenario.ready_with_goal)) = true /\
  answer close Scenario.ready_with_goal
    = Returned (observation "LibreOffice environment closed successfully." true) /\
  Sim.on_disk Scenario.goal_path (outside (after close Scenario.ready_with_goal)) = false /\
  stdout (after close Scenario.ready_with_goal)
    = List.app (stdout Scenario.ready_with_goal)
        [ "🧹 Closing LibreOffice environment...";
          "✅ Document closed.";
          "✅ LibreOffice desktop terminated.";
          "💾 Saving final Excel output to: /tmp/goal.xlsx";
          "⚠️ Could not save goal Excel file: 'NoneType' object has no attribute 'storeAsURL'" ].
Proof. repeat split; vm_compute; reflexivity. Qed.


(** A cell whose text is blank reads as its number. *)
Example get_cell_blank_gives_number :
  data (observed (answer (_get_cell {[ "cell" := PStr "C3" ]}) Scenario.with_text))
    = PFloat 0.
Proof. vm_compute. reflexivity. Qed.

Lemma get_sheet_policy_witness :
  _get_sheet PNone Scenario.two_sheets
    = (Returned (Some (2, 0)%nat), Scenario.two_sheets) /\
  _get_sheet (PStr "Data") Scenario.two_sheets
    = (Returned (Some (2, 1)%nat),
       Proc (self Scenario.two_sheets) (stdout Scenario.two_sheets)
            (outside Scenario.two_sheets)) /\
  _get_sheet (PStr "Missing") Scenario.two_sheets
    = (Returned (Some (2, 0)%nat),
       Proc (self Scenario.two_sheets) (stdout Scenario.two_sheets)
            (outside Scenario.two_sheets)).
Proof.
  split; [|split].
  - exact (proj1 (get_sheet_policy (H := Sim.host)) Scenario.two_sheets).
  - refine (proj1 (proj2 (get_sheet_policy (H := Sim.host)))
              Scenario.two_sheets (PStr "Data") 2%nat 2%nat
              (outside Scenario.two_sheets) (2, 1)%nat (outside Scenario.two_sheets)
              _ _ _ _); [discriminate | reflexivity ..].
  - refine (proj2 (proj2 (get_sheet_policy (H := Sim.host)))
              Scenario.two_sheets (PStr "Missing") 2%nat 2%nat
              (outside Scenario.two_sheets)
              (Exn UnoException "com.sun.star.container.NoSuchElementException")
              (outside Scenario.two_sheets)
              _ _ _ _); [discriminate | reflexivity ..].
Defined.

Lemma set_cell_without_value_witness :
  write_value (H := Sim.host) ((2, 0)%nat, ((1, 1), (1, 1)))
    (get {[ "cell" := PStr "B2" ]} "value")
    = call (setString (Host := Sim.host) ((2, 0)%nat, ((1, 1), (1, 1))) "None") /\
  exists obs,
    _set_cell {[ "cell" := PStr "B2" ]} Scenario.ready
      = (Returned obs,
         Proc (self Scenario.ready) (stdout Scenario.ready)
           (snd (Sim.setString ((2, 0)%nat, ((1, 1), (1, 1))) "None"
                   (outside Scenario.ready)))) /\
    success obs = true.
Proof.
  refine (set_cell_without_value (H := Sim.host) {[ "cell" := PStr "B2" ]}
            Scenario.ready Scenario.ready
            (2, 0)%nat ((2, 0)%nat, ((1, 1), (1, 1))) "Sheet1"
            (outside Scenario.ready)
            (snd (Sim.setString ((2, 0)%nat, ((1, 1), (1, 1))) "None"
                    (outside Scenario.ready)))
            (snd (Sim.setString ((2, 0)%nat, ((1, 1), (1, 1))) "None"
                    (outside Scenario.ready)))
            _ _ _ _ _ _); reflexivity.
Defined.

(** After that write the cell reads back as the text [None]. *)
Example set_cell_without_value_reads_back :
  data (observed (answer (_get_cell {[ "cell" := PStr "B2" ]})
                    (after (_set_cell {[ "cell" := PStr "B2" ]}) Scenario.ready)))
    = PStr "None".
Proof. vm_compute. reflexivity. Qed.

Lemma add_sheet_keeps_current_sheet_witness :
  let run := _add_sheet {[ "name" := PStr "Data" ]} Scenario.ready in
  _current_sheet (self (snd run)) = _current_sheet (self Scenario.ready) /\
  _get_sheet PNone (snd run) = (Returned (_current_sheet (self Scenario.ready)), snd run) /\
  exists count,
    current_sheet (observed (fst run))
      = get_or {[ "name" := PStr "Data" ]} "name" (PStr (default_sheet_name count)).
Proof.
  assert (Hrun : fst (_add_sheet (H := Sim.host) {[ "name" := PStr "Data" ]} Scenario.ready)
                 = Returned (observed (fst (_add_sheet (H := Sim.host)
                                              {[ "name" := PStr "Data" ]} Scenario.ready))))
    by (vm_compute; reflexivity).
  assert (Hok : success (observed (fst (_add_sheet (H := Sim.host)
                                          {[ "name" := PStr "Data" ]} Scenario.ready)))
                = true)
    by (vm_compute; reflexivity).
  exact (add_sheet_keeps_current_sheet (H := Sim.host) {[ "name" := PStr "Data" ]}
           Scenario.ready _ _ (returned_pair _ _ Hrun) Hok).
Defined.

(** The observation names the new sheet while the current sheet is still
    the first one. *)
Example add_sheet_reports_new_sheet :
  current_sheet (observed (answer (_add_sheet {[ "name" := PStr "Data" ]}) Scenario.ready))
    = PStr "Data" /\
  answer (all_sheet_names (H := Sim.host) 2%nat) Scenario.two_sheets = Returned ["Sheet1"; "Data"] /\
  current_sheet (observed (answer (_get_cell {[ "cell" := PStr "A1" ]}) Scenario.two_sheets))
    = PStr "Sheet1".
Proof. repeat split; vm_compute; reflexivity. Qed.



(** ** The further statements on the simulated host *)

Lemma uninitialized_step_is_refused_witness :
  step (action "get_cell" {[ "cell" := PStr "A1" ]}) (Scenario.created None)
  = (Returned
       (completed (action "get_cell" {[ "cell" := PStr "A1" ]})
          (counted (Scenario.created None)) refused_step),
     counted (Scenario.created None)).
Proof.
  exact (uninitialized_step_is_refused (H := Sim.host)
           (action "get_cell" {[ "cell" := PStr "A1" ]}) (Scenario.created None)
           eq_refl).
Defined.

Lemma step_missing_parameter_witness :
  step (action "set_range" {[ "range" := PStr "A1:B2"; "values" := PList [] ]})
    Scenario.ready
  = (Returned
       (completed
          (action "set_range" {[ "range" := PStr "A1:B2"; "values" := PList [] ]})
          (counted Scenario.ready)
          (observation "Range and values required" false
           |> with_error_message "range and values parameters are required")),
     counted Scenario.ready).
Proof.
  refine (step_missing_parameter (H := Sim.host)
            (action "set_range" {[ "range" := PStr "A1:B2"; "values" := PList [] ]})
            Scenario.ready "set_range" ["range"; "values"]
            "Range and values required" "range and values parameters are required"
            eq_refl _ eq_refl _).
  - do 4 right. left. reflexivity.
  - exists "values". split; [right; left; reflexivity | reflexivity].
Defined.

Lemma add_sheet_without_document_witness :
  step (action "add_sheet" ∅) Scenario.refused
  = (Returned
       (completed (action "add_sheet" ∅) (counted Scenario.refused)
          (observation
             ("Error executing command: "
              ++ "'NoneType' object has no attribute 'getSheets'") false
           |> with_error_message "'NoneType' object has no attribute 'getSheets'")),
     counted Scenario.refused).
Proof.
  exact (add_sheet_without_document (H := Sim.host) (action "add_sheet" ∅)
           Scenario.refused eq_refl eq_refl eq_refl).
Defined.

Lemma step_error_message_witness :
  let obs :=
    observed (answer (step (action "delete_sheet" {[ "name" := PStr "Missing" ]}))
                Scenario.ready) in
  (error_message obs <> None -> success obs = false) /\
  (command (action "delete_sheet" {[ "name" := PStr "Missing" ]}) <> "export_pdf" ->
   success obs = false -> error_message obs <> None).
Proof.
  assert (Hrun : fst (step (H := Sim.host)
                        (action "delete_sheet" {[ "name" := PStr "Missing" ]})
                        Scenario.ready)
                 = Returned
                     (observed (fst (step (H := Sim.host)
                                       (action "delete_sheet" {[ "name" := PStr "Missing" ]})
                                       Scenario.ready))))
    by (vm_compute; reflexivity).
  exact (step_error_message (H := Sim.host) _ Scenario.ready _ _
           (returned_pair _ _ Hrun)).
Defined.

(** The failure of that step and its message. *)
Example delete_missing_sheet :
  success (observed (answer (step (action "delete_sheet" {[ "name" := PStr "Missing" ]}))
                       Scenario.ready)) = false /\
  error_message
    (observed (answer (step (action "delete_sheet" {[ "name" := PStr "Missing" ]}))
                 Scenario.ready))
    = Some "com.sun.star.container.NoSuchElementException".
Proof. split; vm_compute; reflexivity. Qed.

Lemma set_cell_unknown_sheet_witness :
  _set_cell {[ "cell" := PStr "B2"; "value" := PStr "x"; "sheet" := PStr "Missing" ]}
    Scenario.ready
  = (Returned
       (observation "Cell B2 set to x" true |> with_current_sheet (PStr "Sheet1")),
     Proc (self Scenario.ready) (stdout Scenario.ready)
       (snd (Sim.setString ((2, 0)%nat, ((1, 1), (1, 1))) "x"
               (outside Scenario.ready)))).
Proof.
  refine (set_cell_unknown_sheet (H := Sim.host)
            {[ "cell" := PStr "B2"; "value" := PStr "x"; "sheet" := PStr "Missing" ]}
            Scenario.ready 2%nat 2%nat
            (Exn UnoException "com.sun.star.container.NoSuchElementException")
            (2, 0)%nat ((2, 0)%nat, ((1, 1), (1, 1))) "Sheet1"
            (outside Scenario.ready) (outside Scenario.ready) (outside Scenario.ready)
            (snd (Sim.setString ((2, 0)%nat, ((1, 1), (1, 1))) "x"
                    (outside Scenario.ready)))
            (snd (Sim.setString ((2, 0)%nat, ((1, 1), (1, 1))) "x"
                    (outside Scenario.ready)))
            _ _ _ _ _ _ _
            (run_call (H := Sim.host)
               (setString (Host := Sim.host) ((2, 0)%nat, ((1, 1), (1, 1))) "x")
               (self Scenario.ready) (stdout Scenario.ready) (outside Scenario.ready)
               (Returned tt) _ eq_refl)
            _); [reflexivity | vm_compute; discriminate | reflexivity ..].
Defined.

Lemma open_file_failure_drops_document_witness :
  _open_file {[ "file_path" := PStr "/tmp/missing.xlsx" ]} Scenario.ready
  = (Returned
       (observation "Failed to open file" false
        |> with_error_message "Could not open the specified file"),
     Proc (set_document None (self Scenario.ready)) (stdout Scenario.ready)
       (snd (Sim.close_document 2 (outside Scenario.ready)))) /\
  exists obs w,
    _save_file {[ "file_path" := PStr "/tmp/out.xlsx" ]}
      (Proc (set_document None (self Scenario.ready)) (stdout Scenario.ready)
         (snd (Sim.close_document 2 (outside Scenario.ready))))
    = (Returned obs,
       Proc (set_document None (self Scenario.ready)) (stdout Scenario.ready) w) /\
    success obs = false.
Proof.
  refine (open_file_failure_drops_document (H := Sim.host)
            {[ "file_path" := PStr "/tmp/missing.xlsx" ]}
            {[ "file_path" := PStr "/tmp/out.xlsx" ]}
            Scenario.ready "/tmp/missing.xlsx" "file:///tmp/missing.xlsx"
            2%nat tt tt
            (outside Scenario.ready) (outside Scenario.ready)
            (snd (Sim.close_document 2 (outside Scenario.ready)))
            (snd (Sim.close_document 2 (outside Scenario.ready)))
            (snd (Sim.close_document 2 (outside Scenario.ready)))
            _ _ _ _ _ _ _ _); reflexivity.
Defined.

Lemma export_pdf_reports_existence_witness :
  _export_pdf {[ "file_path" := PStr "/tmp/out.pdf" ]} Scenario.ready
  = (Returned
       (observation "PDF export completed" true
        |> with_data (PDict [("exported_file", PStr "/tmp/out.pdf")])),
     Proc (self Scenario.ready) (stdout Scenario.ready)
       (snd (Sim.storeToURL 2 "file:///tmp/out.pdf"
               (PropertyValues
                  [("FilterName", PStr "calc_pdf_Export"); ("Overwrite", PBool true)])
               (outside Scenario.ready)))).
Proof.
  refine (export_pdf_reports_existence (H := Sim.host)
            {[ "file_path" := PStr "/tmp/out.pdf" ]} Scenario.ready
            "/tmp" "/tmp" "/tmp/out.pdf" "file:///tmp/out.pdf" 2%nat true
            (outside Scenario.ready) (outside Scenario.ready) (outside Scenario.ready)
            (outside Scenario.ready) (outside Scenario.ready) (outside Scenario.ready)
            (snd (Sim.storeToURL 2 "file:///tmp/out.pdf"
                    (PropertyValues
                       [("FilterName", PStr "calc_pdf_Export"); ("Overwrite", PBool true)])
                    (outside Scenario.ready)))
            (snd (Sim.storeToURL 2 "file:///tmp/out.pdf"
                    (PropertyValues
                       [("FilterName", PStr "calc_pdf_Export"); ("Overwrite", PBool true)])
                    (outside Scenario.ready)))
            _ _ _ _ _ _ _ _ _ _); reflexivity.
Defined.

Lemma export_pdf_unwritable_directory_witness :
  _export_pdf (H := Sim.read_only) {[ "file_path" := PStr "/tmp/out.pdf" ]}
    Scenario.ready_read_only
  = (Returned
       (observation "Directory not writable: /tmp" false
        |> with_error_message "Target directory is not writable"),
     Proc (self Scenario.ready_read_only) (stdout Scenario.ready_read_only)
       (outside Scenario.ready_read_only)).
Proof.
  refine (export_pdf_unwritable_directory (H := Sim.read_only)
            {[ "file_path" := PStr "/tmp/out.pdf" ]} Scenario.ready_read_only
            "/tmp" "/tmp" "/tmp"
            (outside Scenario.ready_read_only) (outside Scenario.ready_read_only)
            (outside Scenario.ready_read_only) (outside Scenario.ready_read_only)
            (outside Scenario.ready_read_only)
            _ _ _ _ _ _); reflexivity.
Defined.

Lemma initialize_gives_up_after_ten_witness :
  exists w',
    _initialize_libreoffice Scenario.unreachable =
    (Returned false,
     Proc (self Scenario.unreachable)
       (List.app (stdout Scenario.unreachable)
          (List.app
             [ "🔧 Initializing LibreOffice environment...";
               "🔌 Attempting to connect to LibreOffice UNO service at " ++ connection_url;
               "⏳ Waiting for LibreOffice to be ready...";
               "✅ Obtained local UNO component context." ]
             (List.app
                (map not_ready [0; 1; 2; 3; 4; 5; 6; 7; 8; 9])
                [ "❌ Failed to initialize LibreOffice: "
                  ++ "Could not connect to LibreOffice UNO socket." ])))
       w').
Proof.
  refine (initialize_gives_up_after_ten (H := Sim.host)
            (fun w => Sim.listening w = []) Scenario.unreachable tt tt
            (outside Scenario.unreachable) (outside Scenario.unreachable)
            _ _ _ _); [reflexivity .. |].
  intros w Hw. exists "Connector : couldn't connect to socket", w.
  split; [|exact Hw].
  change (Sim.resolve tt connection_url w
          = (Raised (Exn NoConnectException "Connector : couldn't connect to socket"), w)).
  unfold Sim.resolve. rewrite Hw. reflexivity.
Defined.

Lemma cleanup_stops_at_first_error_witness :
  _cleanup_libreoffice Scenario.crashed
  = (Returned tt,
     Proc (self Scenario.crashed)
       (List.app (stdout Scenario.crashed)
          ["Error during cleanup: " ++ "com.sun.star.lang.DisposedException"])
       (outside Scenario.crashed)).
Proof.
  exact (cleanup_stops_at_first_error (H := Sim.host) Scenario.crashed 2%nat
           (Exn UnoException "com.sun.star.lang.DisposedException")
           (outside Scenario.crashed) eq_refl eq_refl).
Defined.

Lemma client_omitted_sheet_witness :
  Forall
    (fun action =>
       parameters action !! "sheet" = None /\
       _get_sheet (get (parameters action) "sheet") Scenario.two_sheets
         = (Returned (_current_sheet (self Scenario.two_sheets)), Scenario.two_sheets))
    (Client.on_sheet (PStr "A1") (PInt 1) (PStr "A1:B2")
       (PList [PList [PInt 1; PInt 2]]) (PStr "=A1+1") (PDict [("bold", PBool true)])
       (PStr "")).
Proof.
  exact (client_omitted_sheet (H := Sim.host) (PStr "A1") (PInt 1) (PStr "A1:B2")
           (PList [PList [PInt 1; PInt 2]]) (PStr "=A1+1")
           (PDict [("bold", PBool true)]) (PStr "") Scenario.two_sheets eq_refl).
Defined.

Lemma create_sheet_reports_current_sheet_witness :
  _create_sheet ∅ Scenario.two_sheets
  = (Returned
       (observation "New spreadsheet created" true
        |> with_current_sheet (PStr "Sheet1")
        |> with_sheet_names ["Sheet1"]),
     Proc (self Scenario.two_sheets) (stdout Scenario.two_sheets)
       (outside Scenario.two_sheets)).
Proof.
  refine (create_sheet_reports_current_sheet (H := Sim.host) ∅ Scenario.two_sheets
            (2, 0)%nat "Sheet1" "Sheet1"
            (outside Scenario.two_sheets) (outside Scenario.two_sheets)
            _ _ _); reflexivity.
Defined.

Lemma rename_sheet_reports_new_name_witness :
  _rename_sheet {[ "old_name" := PStr "Data"; "new_name" := PStr "Other" ]}
    Scenario.two_sheets
  = (Returned
       (observation "Sheet renamed from 'Data' to 'Other'" true
        |> with_current_sheet (PStr "Other")
        |> with_sheet_names ["Sheet1"; "Other"]),
     Proc (self Scenario.two_sheets) (stdout Scenario.two_sheets)
       (snd (Sim.setName (2, 1)%nat (PStr "Other") (outside Scenario.two_sheets)))) /\
  _get_sheet PNone
    (Proc (self Scenario.two_sheets) (stdout Scenario.two_sheets)
       (snd (Sim.setName (2, 1)%nat (PStr "Other") (outside Scenario.two_sheets))))
  = (Returned (Some (2, 0)%nat),
     Proc (self Scenario.two_sheets) (stdout Scenario.two_sheets)
       (snd (Sim.setName (2, 1)%nat (PStr "Other") (outside Scenario.two_sheets)))).
Proof.
  refine (rename_sheet_reports_new_name (H := Sim.host)
            {[ "old_name" := PStr "Data"; "new_name" := PStr "Other" ]}
            Scenario.two_sheets 2%nat 2%nat (2, 1)%nat (2, 0)%nat "Sheet1"
            ["Sheet1"; "Other"]
            (outside Scenario.two_sheets) (outside Scenario.two_sheets)
            (snd (Sim.setName (2, 1)%nat (PStr "Other") (outside Scenario.two_sheets)))
            (snd (Sim.setName (2, 1)%nat (PStr "Other") (outside Scenario.two_sheets)))
            (snd (Sim.setName (2, 1)%nat (PStr "Other") (outside Scenario.two_sheets)))
            _ _ _ _ _ _ _ _ _ _); reflexivity.
Defined.

(** After that rename the current sheet is still [Sheet1]. *)
Example rename_sheet_current_sheet_name :
  current_sheet
    (observed
       (answer (_get_cell {[ "cell" := PStr "A1" ]})
          (after (_rename_sheet {[ "old_name" := PStr "Data"; "new_name" := PStr "Other" ]})
             Scenario.two_sheets)))
  = PStr "Sheet1".
Proof. vm_compute. reflexivity. Qed.

Lemma delete_sheet_fails_after_removal_witness :
  _delete_sheet {[ "name" := PStr "Sheet1" ]} Scenario.two_sheets
  = (Returned
       (observation
          ("Error deleting sheet: " ++ "com.sun.star.lang.DisposedException") false
        |> with_error_message "com.sun.star.lang.DisposedException"),
     Proc (self Scenario.two_sheets) (stdout Scenario.two_sheets)
       (snd (Sim.remove 2 (2, 0)%nat (outside Scenario.two_sheets)))).
Proof.
  refine (delete_sheet_fails_after_removal (H := Sim.host)
            {[ "name" := PStr "Sheet1" ]} Scenario.two_sheets
            2%nat 2%nat (2, 0)%nat (2, 0)%nat
            (Exn UnoException "com.sun.star.lang.DisposedException")
            (outside Scenario.two_sheets) (outside Scenario.two_sheets)
            (snd (Sim.remove 2 (2, 0)%nat (outside Scenario.two_sheets)))
            (snd (Sim.remove 2 (2, 0)%nat (outside Scenario.two_sheets)))
            _ _ _ _ _ _ _); reflexivity.
Defined.

(** The sheet is gone all the same. *)
Example delete_sheet_removed :
  answer (all_sheet_names (H := Sim.host) 2%nat)
    (after (_delete_sheet {[ "name" := PStr "Sheet1" ]}) Scenario.two_sheets)
  = Returned ["Data"].
Proof. vm_compute. reflexivity. Qed.

Lemma format_cell_options_not_a_container_witness :
  _format_cell {[ "cell" := PStr "A1"; "format_options" := PNone ]} Scenario.ready
  = (Returned
       (observation
          ("Error formatting cell: " ++ "argument of type 'NoneType' is not iterable")
          false
        |> with_error_message "argument of type 'NoneType' is not iterable"),
     Proc (self Scenario.ready) (stdout Scenario.ready) (outside Scenario.ready)).
Proof.
  refine (format_cell_options_not_a_container (H := Sim.host)
            {[ "cell" := PStr "A1"; "format_options" := PNone ]}
            Scenario.ready Scenario.ready PNone (2, 0)%nat
            ((2, 0)%nat, ((0, 0), (0, 0)))
            (Exn TypeError "argument of type 'NoneType' is not iterable")
            (outside Scenario.ready)
            _ _ _ _ _); reflexivity.
Defined.
